(** * html2md: the HTML to Markdown converter of include/html2md.h

    The header declares the [Converter] class, gives the bodies of
    [utils::Repeat], of the per-tag handler structs and of the ancestry
    predicates [IsIgnoredTag] / [IsInIgnoredTag], and only declares the
    scanner, the output-buffer operations and the normalizer.  The
    definitions below embed the header; every operation the header merely
    declares is marked as modelled from the specification. *)

From Stdlib Require Import ZArith List Bool Ascii String Lia DecimalString.
Import ListNotations.

Local Open Scope string_scope.
Local Open Scope Z_scope.

Notation "c |> f" := (f c) (at level 55, left associativity, only parsing).

(** ** Characters and machine integers *)

Definition NUL : ascii := "000"%char.
Definition ch_tab : ascii := "009"%char.
Definition ch_nl : ascii := "010"%char.
Definition ch_dquote : ascii := "034"%char.
Definition ch_squote : ascii := "039"%char.

Definition nl : string := String ch_nl EmptyString.
Definition tab : string := String ch_tab EmptyString.
Definition dq : string := String ch_dquote EmptyString.

(** [std::isspace] in the C locale: blank, \t, \n, \v, \f, \r. *)
Definition isspace (ch : ascii) : bool :=
  let n := nat_of_ascii ch in
  (Nat.eqb n 32 || (Nat.leb 9 n && Nat.leb n 13))%bool.

(** [std::tolower] in the C locale. *)
Definition tolower (ch : ascii) : ascii :=
  let n := nat_of_ascii ch in
  if (Nat.leb 65 n && Nat.leb n 90)%bool then ascii_of_nat (n + 32) else ch.

Definition is_quote (ch : ascii) : bool :=
  (Ascii.eqb ch ch_dquote || Ascii.eqb ch ch_squote)%bool.

(** [uint16_t], [short] and [int] arithmetic, with the wrap-around of the
    usual two's-complement targets; [size_t] is taken to be 64 bits wide. *)
Definition wrap_uint16 (z : Z) : Z := z mod 65536.
Definition wrap_short (z : Z) : Z := (z + 32768) mod 65536 - 32768.
Definition wrap_int (z : Z) : Z := (z + 2147483648) mod 4294967296 - 2147483648.
Definition to_size_t (z : Z) : Z := z mod 18446744073709551616.

(** [std::to_string(int)]. *)
Definition to_string (z : Z) : string := NilZero.string_of_int (Z.to_int z).

(** ** std::string helpers *)

Definition chars (s : string) : list ascii := list_ascii_of_string s.
Definition of_chars (l : list ascii) : string := string_of_list_ascii l.

Definition str_len (s : string) : Z := Z.of_nat (String.length s).

(** [s.empty()] *)
Definition empty (s : string) : bool :=
  match s with EmptyString => true | String _ _ => false end.

(** [s.c_str()] read back as a C string: the characters before the first NUL. *)
Fixpoint c_str (s : string) : string :=
  match s with
  | EmptyString => EmptyString
  | String ch s' => if Ascii.eqb ch NUL then EmptyString else String ch (c_str s')
  end.

(** [s.erase(0, n)]: drops the first [n] characters, all of them when the
    string is shorter. *)
Fixpoint erase_front (n : nat) (s : string) : string :=
  match n, s with
  | O, _ => s
  | S _, EmptyString => EmptyString
  | S n', String _ s' => erase_front n' s'
  end.

(** The last and the last-but-one character, NUL where there is none. *)
Definition last_ch (s : string) : ascii := last (chars s) NUL.
Definition last2_ch (s : string) : ascii := last (removelast (chars s)) NUL.

(** Number of characters after the last newline. *)
Fixpoint curr_line_len (l : list ascii) (acc : nat) : nat :=
  match l with
  | [] => acc
  | ch :: l' => curr_line_len l' (if Ascii.eqb ch ch_nl then O else S acc)
  end.

(** ** utils *)

Module utils.

(** The loop of [Repeat]: [for (uint16_t i = 0; i < amount; i++) out += str;].
    The counter is a [uint16_t] and is compared with the [size_t] amount, so
    [i++] wraps at 65536.  [fuel] bounds the number of loop tests the model
    runs; [None] means the loop has not left after that many. *)
Fixpoint Repeat_loop (fuel : nat) (s : string) (amount i : Z) (out : string)
  : option string :=
  match fuel with
  | O => None
  | S fuel' =>
      if i <? amount
      then Repeat_loop fuel' s amount (wrap_uint16 (i + 1)) (out ++ s)
      else Some out
  end.

Definition Repeat (fuel : nat) (s : string) (amount : Z) : option string :=
  if amount =? 0 then Some EmptyString
  else if amount =? 1 then Some s
  else Repeat_loop fuel s amount 0 EmptyString.

(** Modelled from the spec: [utils::Split] is declared in the header (split a
    string by a delimiter character into a vector of strings), its body is
    not part of the sources.  [n] delimiters give [n + 1] fields. *)
Fixpoint Split (l : list ascii) (delimiter : ascii) : list (list ascii) :=
  match l with
  | [] => [[]]
  | ch :: l' =>
      if Ascii.eqb ch delimiter then [] :: Split l' delimiter
      else match Split l' delimiter with
           | [] => [[ch]]
           | x :: xs => (ch :: x) :: xs
           end
  end.

End utils.

(** Fallible steps (a handler whose [Repeat] loop does not leave). *)
Definition bind {A B : Type} (m : option A) (f : A -> option B) : option B :=
  match m with
  | Some a => f a
  | None => None
  end.

Notation "x <- m ;; k" := (bind m (fun x => k))
  (at level 61, m at next level, right associativity).

(** ** The converter state: the data members of [class Converter]

    [tags_], the dispatch table, is a fixed map and is given as the function
    [tags_] further down. *)

Record Converter : Type := mkConverter {
  index_ch_in_html_ : Z;  (* uint16_t, scan cursor *)
  dom_tags_ : list string;  (* std::vector<std::string>, the ancestry stack (push_back at the end) *)
  is_in_tag_ : bool;
  is_closing_tag_ : bool;
  is_in_attribute_value_ : bool;
  is_in_pre_ : bool;
  is_in_code_ : bool;
  is_in_table_ : bool;
  is_in_list_ : bool;
  is_in_ordered_list_ : bool;
  index_li : Z;  (* int *)
  index_blockquote : Z;  (* short *)
  prev_ch_in_md_ : ascii;
  prev_prev_ch_in_md_ : ascii;
  prev_ch_in_html_ : ascii;  (* initialised to 'x' *)
  html_ : string;
  offset_lt_ : Z;  (* uint16_t *)
  current_tag_ : string;
  prev_tag_ : string;
  current_attribute_ : string;
  current_attribute_value_ : string;
  current_href_ : string;
  current_title_ : string;
  current_alt_ : string;
  current_src_ : string;
  tableLine : string;
  chars_in_curr_line_ : Z;  (* size_t *)
  char_index_in_tag_content : Z;  (* uint16_t *)
  md_ : string;
  md_len_ : Z  (* size_t *)
}.

(** Assignments to one data member. *)

Definition set_index_ch_in_html_ (v : Z) (c : Converter) : Converter :=
  {| index_ch_in_html_ := v; dom_tags_ := dom_tags_ c; is_in_tag_ := is_in_tag_ c;
     is_closing_tag_ := is_closing_tag_ c; is_in_attribute_value_ := is_in_attribute_value_ c;
     is_in_pre_ := is_in_pre_ c; is_in_code_ := is_in_code_ c; is_in_table_ := is_in_table_ c;
     is_in_list_ := is_in_list_ c; is_in_ordered_list_ := is_in_ordered_list_ c;
     index_li := index_li c; index_blockquote := index_blockquote c;
     prev_ch_in_md_ := prev_ch_in_md_ c; prev_prev_ch_in_md_ := prev_prev_ch_in_md_ c;
     prev_ch_in_html_ := prev_ch_in_html_ c; html_ := html_ c; offset_lt_ := offset_lt_ c;
     current_tag_ := current_tag_ c; prev_tag_ := prev_tag_ c;
     current_attribute_ := current_attribute_ c;
     current_attribute_value_ := current_attribute_value_ c; current_href_ := current_href_ c;
     current_title_ := current_title_ c; current_alt_ := current_alt_ c;
     current_src_ := current_src_ c; tableLine := tableLine c;
     chars_in_curr_line_ := chars_in_curr_line_ c;
     char_index_in_tag_content := char_index_in_tag_content c; md_ := md_ c;
     md_len_ := md_len_ c |}.

Definition set_dom_tags_ (v : list string) (c : Converter) : Converter :=
  {| index_ch_in_html_ := index_ch_in_html_ c; dom_tags_ := v; is_in_tag_ := is_in_tag_ c;
     is_closing_tag_ := is_closing_tag_ c; is_in_attribute_value_ := is_in_attribute_value_ c;
     is_in_pre_ := is_in_pre_ c; is_in_code_ := is_in_code_ c; is_in_table_ := is_in_table_ c;
     is_in_list_ := is_in_list_ c; is_in_ordered_list_ := is_in_ordered_list_ c;
     index_li := index_li c; index_blockquote := index_blockquote c;
     prev_ch_in_md_ := prev_ch_in_md_ c; prev_prev_ch_in_md_ := prev_prev_ch_in_md_ c;
     prev_ch_in_html_ := prev_ch_in_html_ c; html_ := html_ c; offset_lt_ := offset_lt_ c;
     current_tag_ := current_tag_ c; prev_tag_ := prev_tag_ c;
     current_attribute_ := current_attribute_ c;
     current_attribute_value_ := current_attribute_value_ c; current_href_ := current_href_ c;
     current_title_ := current_title_ c; current_alt_ := current_alt_ c;
     current_src_ := current_src_ c; tableLine := tableLine c;
     chars_in_curr_line_ := chars_in_curr_line_ c;
     char_index_in_tag_content := char_index_in_tag_content c; md_ := md_ c;
     md_len_ := md_len_ c |}.

Definition set_is_in_tag_ (v : bool) (c : Converter) : Converter :=
  {| index_ch_in_html_ := index_ch_in_html_ c; dom_tags_ := dom_tags_ c; is_in_tag_ := v;
     is_closing_tag_ := is_closing_tag_ c; is_in_attribute_value_ := is_in_attribute_value_ c;
     is_in_pre_ := is_in_pre_ c; is_in_code_ := is_in_code_ c; is_in_table_ := is_in_table_ c;
     is_in_list_ := is_in_list_ c; is_in_ordered_list_ := is_in_ordered_list_ c;
     index_li := index_li c; index_blockquote := index_blockquote c;
     prev_ch_in_md_ := prev_ch_in_md_ c; prev_prev_ch_in_md_ := prev_prev_ch_in_md_ c;
     prev_ch_in_html_ := prev_ch_in_html_ c; html_ := html_ c; offset_lt_ := offset_lt_ c;
     current_tag_ := current_tag_ c; prev_tag_ := prev_tag_ c;
     current_attribute_ := current_attribute_ c;
     current_attribute_value_ := current_attribute_value_ c; current_href_ := current_href_ c;
     current_title_ := current_title_ c; current_alt_ := current_alt_ c;
     current_src_ := current_src_ c; tableLine := tableLine c;
     chars_in_curr_line_ := chars_in_curr_line_ c;
     char_index_in_tag_content := char_index_in_tag_content c; md_ := md_ c;
     md_len_ := md_len_ c |}.

Definition set_is_closing_tag_ (v : bool) (c : Converter) : Converter :=
  {| index_ch_in_html_ := index_ch_in_html_ c; dom_tags_ := dom_tags_ c;
     is_in_tag_ := is_in_tag_ c; is_closing_tag_ := v;
     is_in_attribute_value_ := is_in_attribute_value_ c; is_in_pre_ := is_in_pre_ c;
     is_in_code_ := is_in_code_ c; is_in_table_ := is_in_table_ c;
     is_in_list_ := is_in_list_ c; is_in_ordered_list_ := is_in_ordered_list_ c;
     index_li := index_li c; index_blockquote := index_blockquote c;
     prev_ch_in_md_ := prev_ch_in_md_ c; prev_prev_ch_in_md_ := prev_prev_ch_in_md_ c;
     prev_ch_in_html_ := prev_ch_in_html_ c; html_ := html_ c; offset_lt_ := offset_lt_ c;
     current_tag_ := current_tag_ c; prev_tag_ := prev_tag_ c;
     current_attribute_ := current_attribute_ c;
     current_attribute_value_ := current_attribute_value_ c; current_href_ := current_href_ c;
     current_title_ := current_title_ c; current_alt_ := current_alt_ c;
     current_src_ := current_src_ c; tableLine := tableLine c;
     chars_in_curr_line_ := chars_in_curr_line_ c;
     char_index_in_tag_content := char_index_in_tag_content c; md_ := md_ c;
     md_len_ := md_len_ c |}.

Definition set_is_in_attribute_value_ (v : bool) (c : Converter) : Converter :=
  {| index_ch_in_html_ := index_ch_in_html_ c; dom_tags_ := dom_tags_ c;
     is_in_tag_ := is_in_tag_ c; is_closing_tag_ := is_closing_tag_ c;
     is_in_attribute_value_ := v; is_in_pre_ := is_in_pre_ c; is_in_code_ := is_in_code_ c;
     is_in_table_ := is_in_table_ c; is_in_list_ := is_in_list_ c;
     is_in_ordered_list_ := is_in_ordered_list_ c; index_li := index_li c;
     index_blockquote := index_blockquote c; prev_ch_in_md_ := prev_ch_in_md_ c;
     prev_prev_ch_in_md_ := prev_prev_ch_in_md_ c; prev_ch_in_html_ := prev_ch_in_html_ c;
     html_ := html_ c; offset_lt_ := offset_lt_ c; current_tag_ := current_tag_ c;
     prev_tag_ := prev_tag_ c; current_attribute_ := current_attribute_ c;
     current_attribute_value_ := current_attribute_value_ c; current_href_ := current_href_ c;
     current_title_ := current_title_ c; current_alt_ := current_alt_ c;
     current_src_ := current_src_ c; tableLine := tableLine c;
     chars_in_curr_line_ := chars_in_curr_line_ c;
     char_index_in_tag_content := char_index_in_tag_content c; md_ := md_ c;
     md_len_ := md_len_ c |}.

Definition set_is_in_pre_ (v : bool) (c : Converter) : Converter :=
  {| index_ch_in_html_ := index_ch_in_html_ c; dom_tags_ := dom_tags_ c;
     is_in_tag_ := is_in_tag_ c; is_closing_tag_ := is_closing_tag_ c;
     is_in_attribute_value_ := is_in_attribute_value_ c; is_in_pre_ := v;
     is_in_code_ := is_in_code_ c; is_in_table_ := is_in_table_ c;
     is_in_list_ := is_in_list_ c; is_in_ordered_list_ := is_in_ordered_list_ c;
     index_li := index_li c; index_blockquote := index_blockquote c;
     prev_ch_in_md_ := prev_ch_in_md_ c; prev_prev_ch_in_md_ := prev_prev_ch_in_md_ c;
     prev_ch_in_html_ := prev_ch_in_html_ c; html_ := html_ c; offset_lt_ := offset_lt_ c;
     current_tag_ := current_tag_ c; prev_tag_ := prev_tag_ c;
     current_attribute_ := current_attribute_ c;
     current_attribute_value_ := current_attribute_value_ c; current_href_ := current_href_ c;
     current_title_ := current_title_ c; current_alt_ := current_alt_ c;
     current_src_ := current_src_ c; tableLine := tableLine c;
     chars_in_curr_line_ := chars_in_curr_line_ c;
     char_index_in_tag_content := char_index_in_tag_content c; md_ := md_ c;
     md_len_ := md_len_ c |}.

Definition set_is_in_code_ (v : bool) (c : Converter) : Converter :=
  {| index_ch_in_html_ := index_ch_in_html_ c; dom_tags_ := dom_tags_ c;
     is_in_tag_ := is_in_tag_ c; is_closing_tag_ := is_closing_tag_ c;
     is_in_attribute_value_ := is_in_attribute_value_ c; is_in_pre_ := is_in_pre_ c;
     is_in_code_ := v; is_in_table_ := is_in_table_ c; is_in_list_ := is_in_list_ c;
     is_in_ordered_list_ := is_in_ordered_list_ c; index_li := index_li c;
     index_blockquote := index_blockquote c; prev_ch_in_md_ := prev_ch_in_md_ c;
     prev_prev_ch_in_md_ := prev_prev_ch_in_md_ c; prev_ch_in_html_ := prev_ch_in_html_ c;
     html_ := html_ c; offset_lt_ := offset_lt_ c; current_tag_ := current_tag_ c;
     prev_tag_ := prev_tag_ c; current_attribute_ := current_attribute_ c;
     current_attribute_value_ := current_attribute_value_ c; current_href_ := current_href_ c;
     current_title_ := current_title_ c; current_alt_ := current_alt_ c;
     current_src_ := current_src_ c; tableLine := tableLine c;
     chars_in_curr_line_ := chars_in_curr_line_ c;
     char_index_in_tag_content := char_index_in_tag_content c; md_ := md_ c;
     md_len_ := md_len_ c |}.

Definition set_is_in_table_ (v : bool) (c : Converter) : Converter :=
  {| index_ch_in_html_ := index_ch_in_html_ c; dom_tags_ := dom_tags_ c;
     is_in_tag_ := is_in_tag_ c; is_closing_tag_ := is_closing_tag_ c;
     is_in_attribute_value_ := is_in_attribute_value_ c; is_in_pre_ := is_in_pre_ c;
     is_in_code_ := is_in_code_ c; is_in_table_ := v; is_in_list_ := is_in_list_ c;
     is_in_ordered_list_ := is_in_ordered_list_ c; index_li := index_li c;
     index_blockquote := index_blockquote c; prev_ch_in_md_ := prev_ch_in_md_ c;
     prev_prev_ch_in_md_ := prev_prev_ch_in_md_ c; prev_ch_in_html_ := prev_ch_in_html_ c;
     html_ := html_ c; offset_lt_ := offset_lt_ c; current_tag_ := current_tag_ c;
     prev_tag_ := prev_tag_ c; current_attribute_ := current_attribute_ c;
     current_attribute_value_ := current_attribute_value_ c; current_href_ := current_href_ c;
     current_title_ := current_title_ c; current_alt_ := current_alt_ c;
     current_src_ := current_src_ c; tableLine := tableLine c;
     chars_in_curr_line_ := chars_in_curr_line_ c;
     char_index_in_tag_content := char_index_in_tag_content c; md_ := md_ c;
     md_len_ := md_len_ c |}.

Definition set_is_in_list_ (v : bool) (c : Converter) : Converter :=
  {| index_ch_in_html_ := index_ch_in_html_ c; dom_tags_ := dom_tags_ c;
     is_in_tag_ := is_in_tag_ c; is_closing_tag_ := is_closing_tag_ c;
     is_in_attribute_value_ := is_in_attribute_value_ c; is_in_pre_ := is_in_pre_ c;
     is_in_code_ := is_in_code_ c; is_in_table_ := is_in_table_ c; is_in_list_ := v;
     is_in_ordered_list_ := is_in_ordered_list_ c; index_li := index_li c;
     index_blockquote := index_blockquote c; prev_ch_in_md_ := prev_ch_in_md_ c;
     prev_prev_ch_in_md_ := prev_prev_ch_in_md_ c; prev_ch_in_html_ := prev_ch_in_html_ c;
     html_ := html_ c; offset_lt_ := offset_lt_ c; current_tag_ := current_tag_ c;
     prev_tag_ := prev_tag_ c; current_attribute_ := current_attribute_ c;
     current_attribute_value_ := current_attribute_value_ c; current_href_ := current_href_ c;
     current_title_ := current_title_ c; current_alt_ := current_alt_ c;
     current_src_ := current_src_ c; tableLine := tableLine c;
     chars_in_curr_line_ := chars_in_curr_line_ c;
     char_index_in_tag_content := char_index_in_tag_content c; md_ := md_ c;
     md_len_ := md_len_ c |}.

Definition set_is_in_ordered_list_ (v : bool) (c : Converter) : Converter :=
  {| index_ch_in_html_ := index_ch_in_html_ c; dom_tags_ := dom_tags_ c;
     is_in_tag_ := is_in_tag_ c; is_closing_tag_ := is_closing_tag_ c;
     is_in_attribute_value_ := is_in_attribute_value_ c; is_in_pre_ := is_in_pre_ c;
     is_in_code_ := is_in_code_ c; is_in_table_ := is_in_table_ c;
     is_in_list_ := is_in_list_ c; is_in_ordered_list_ := v; index_li := index_li c;
     index_blockquote := index_blockquote c; prev_ch_in_md_ := prev_ch_in_md_ c;
     prev_prev_ch_in_md_ := prev_prev_ch_in_md_ c; prev_ch_in_html_ := prev_ch_in_html_ c;
     html_ := html_ c; offset_lt_ := offset_lt_ c; current_tag_ := current_tag_ c;
     prev_tag_ := prev_tag_ c; current_attribute_ := current_attribute_ c;
     current_attribute_value_ := current_attribute_value_ c; current_href_ := current_href_ c;
     current_title_ := current_title_ c; current_alt_ := current_alt_ c;
     current_src_ := current_src_ c; tableLine := tableLine c;
     chars_in_curr_line_ := chars_in_curr_line_ c;
     char_index_in_tag_content := char_index_in_tag_content c; md_ := md_ c;
     md_len_ := md_len_ c |}.

Definition set_index_li (v : Z) (c : Converter) : Converter :=
  {| index_ch_in_html_ := index_ch_in_html_ c; dom_tags_ := dom_tags_ c;
     is_in_tag_ := is_in_tag_ c; is_closing_tag_ := is_closing_tag_ c;
     is_in_attribute_value_ := is_in_attribute_value_ c; is_in_pre_ := is_in_pre_ c;
     is_in_code_ := is_in_code_ c; is_in_table_ := is_in_table_ c;
     is_in_list_ := is_in_list_ c; is_in_ordered_list_ := is_in_ordered_list_ c; index_li := v;
     index_blockquote := index_blockquote c; prev_ch_in_md_ := prev_ch_in_md_ c;
     prev_prev_ch_in_md_ := prev_prev_ch_in_md_ c; prev_ch_in_html_ := prev_ch_in_html_ c;
     html_ := html_ c; offset_lt_ := offset_lt_ c; current_tag_ := current_tag_ c;
     prev_tag_ := prev_tag_ c; current_attribute_ := current_attribute_ c;
     current_attribute_value_ := current_attribute_value_ c; current_href_ := current_href_ c;
     current_title_ := current_title_ c; current_alt_ := current_alt_ c;
     current_src_ := current_src_ c; tableLine := tableLine c;
     chars_in_curr_line_ := chars_in_curr_line_ c;
     char_index_in_tag_content := char_index_in_tag_content c; md_ := md_ c;
     md_len_ := md_len_ c |}.

Definition set_index_blockquote (v : Z) (c : Converter) : Converter :=
  {| index_ch_in_html_ := index_ch_in_html_ c; dom_tags_ := dom_tags_ c;
     is_in_tag_ := is_in_tag_ c; is_closing_tag_ := is_closing_tag_ c;
     is_in_attribute_value_ := is_in_attribute_value_ c; is_in_pre_ := is_in_pre_ c;
     is_in_code_ := is_in_code_ c; is_in_table_ := is_in_table_ c;
     is_in_list_ := is_in_list_ c; is_in_ordered_list_ := is_in_ordered_list_ c;
     index_li := index_li c; index_blockquote := v; prev_ch_in_md_ := prev_ch_in_md_ c;
     prev_prev_ch_in_md_ := prev_prev_ch_in_md_ c; prev_ch_in_html_ := prev_ch_in_html_ c;
     html_ := html_ c; offset_lt_ := offset_lt_ c; current_tag_ := current_tag_ c;
     prev_tag_ := prev_tag_ c; current_attribute_ := current_attribute_ c;
     current_attribute_value_ := current_attribute_value_ c; current_href_ := current_href_ c;
     current_title_ := current_title_ c; current_alt_ := current_alt_ c;
     current_src_ := current_src_ c; tableLine := tableLine c;
     chars_in_curr_line_ := chars_in_curr_line_ c;
     char_index_in_tag_content := char_index_in_tag_content c; md_ := md_ c;
     md_len_ := md_len_ c |}.

Definition set_prev_ch_in_md_ (v : ascii) (c : Converter) : Converter :=
  {| index_ch_in_html_ := index_ch_in_html_ c; dom_tags_ := dom_tags_ c;
     is_in_tag_ := is_in_tag_ c; is_closing_tag_ := is_closing_tag_ c;
     is_in_attribute_value_ := is_in_attribute_value_ c; is_in_pre_ := is_in_pre_ c;
     is_in_code_ := is_in_code_ c; is_in_table_ := is_in_table_ c;
     is_in_list_ := is_in_list_ c; is_in_ordered_list_ := is_in_ordered_list_ c;
     index_li := index_li c; index_blockquote := index_blockquote c; prev_ch_in_md_ := v;
     prev_prev_ch_in_md_ := prev_prev_ch_in_md_ c; prev_ch_in_html_ := prev_ch_in_html_ c;
     html_ := html_ c; offset_lt_ := offset_lt_ c; current_tag_ := current_tag_ c;
     prev_tag_ := prev_tag_ c; current_attribute_ := current_attribute_ c;
     current_attribute_value_ := current_attribute_value_ c; current_href_ := current_href_ c;
     current_title_ := current_title_ c; current_alt_ := current_alt_ c;
     current_src_ := current_src_ c; tableLine := tableLine c;
     chars_in_curr_line_ := chars_in_curr_line_ c;
     char_index_in_tag_content := char_index_in_tag_content c; md_ := md_ c;
     md_len_ := md_len_ c |}.

Definition set_prev_prev_ch_in_md_ (v : ascii) (c : Converter) : Converter :=
  {| index_ch_in_html_ := index_ch_in_html_ c; dom_tags_ := dom_tags_ c;
     is_in_tag_ := is_in_tag_ c; is_closing_tag_ := is_closing_tag_ c;
     is_in_attribute_value_ := is_in_attribute_value_ c; is_in_pre_ := is_in_pre_ c;
     is_in_code_ := is_in_code_ c; is_in_table_ := is_in_table_ c;
     is_in_list_ := is_in_list_ c; is_in_ordered_list_ := is_in_ordered_list_ c;
     index_li := index_li c; index_blockquote := index_blockquote c;
     prev_ch_in_md_ := prev_ch_in_md_ c; prev_prev_ch_in_md_ := v;
     prev_ch_in_html_ := prev_ch_in_html_ c; html_ := html_ c; offset_lt_ := offset_lt_ c;
     current_tag_ := current_tag_ c; prev_tag_ := prev_tag_ c;
     current_attribute_ := current_attribute_ c;
     current_attribute_value_ := current_attribute_value_ c; current_href_ := current_href_ c;
     current_title_ := current_title_ c; current_alt_ := current_alt_ c;
     current_src_ := current_src_ c; tableLine := tableLine c;
     chars_in_curr_line_ := chars_in_curr_line_ c;
     char_index_in_tag_content := char_index_in_tag_content c; md_ := md_ c;
     md_len_ := md_len_ c |}.

Definition set_prev_ch_in_html_ (v : ascii) (c : Converter) : Converter :=
  {| index_ch_in_html_ := index_ch_in_html_ c; dom_tags_ := dom_tags_ c;
     is_in_tag_ := is_in_tag_ c; is_closing_tag_ := is_closing_tag_ c;
     is_in_attribute_value_ := is_in_attribute_value_ c; is_in_pre_ := is_in_pre_ c;
     is_in_code_ := is_in_code_ c; is_in_table_ := is_in_table_ c;
     is_in_list_ := is_in_list_ c; is_in_ordered_list_ := is_in_ordered_list_ c;
     index_li := index_li c; index_blockquote := index_blockquote c;
     prev_ch_in_md_ := prev_ch_in_md_ c; prev_prev_ch_in_md_ := prev_prev_ch_in_md_ c;
     prev_ch_in_html_ := v; html_ := html_ c; offset_lt_ := offset_lt_ c;
     current_tag_ := current_tag_ c; prev_tag_ := prev_tag_ c;
     current_attribute_ := current_attribute_ c;
     current_attribute_value_ := current_attribute_value_ c; current_href_ := current_href_ c;
     current_title_ := current_title_ c; current_alt_ := current_alt_ c;
     current_src_ := current_src_ c; tableLine := tableLine c;
     chars_in_curr_line_ := chars_in_curr_line_ c;
     char_index_in_tag_content := char_index_in_tag_content c; md_ := md_ c;
     md_len_ := md_len_ c |}.

Definition set_offset_lt_ (v : Z) (c : Converter) : Converter :=
  {| index_ch_in_html_ := index_ch_in_html_ c; dom_tags_ := dom_tags_ c;
     is_in_tag_ := is_in_tag_ c; is_closing_tag_ := is_closing_tag_ c;
     is_in_attribute_value_ := is_in_attribute_value_ c; is_in_pre_ := is_in_pre_ c;
     is_in_code_ := is_in_code_ c; is_in_table_ := is_in_table_ c;
     is_in_list_ := is_in_list_ c; is_in_ordered_list_ := is_in_ordered_list_ c;
     index_li := index_li c; index_blockquote := index_blockquote c;
     prev_ch_in_md_ := prev_ch_in_md_ c; prev_prev_ch_in_md_ := prev_prev_ch_in_md_ c;
     prev_ch_in_html_ := prev_ch_in_html_ c; html_ := html_ c; offset_lt_ := v;
     current_tag_ := current_tag_ c; prev_tag_ := prev_tag_ c;
     current_attribute_ := current_attribute_ c;
     current_attribute_value_ := current_attribute_value_ c; current_href_ := current_href_ c;
     current_title_ := current_title_ c; current_alt_ := current_alt_ c;
     current_src_ := current_src_ c; tableLine := tableLine c;
     chars_in_curr_line_ := chars_in_curr_line_ c;
     char_index_in_tag_content := char_index_in_tag_content c; md_ := md_ c;
     md_len_ := md_len_ c |}.

Definition set_current_tag_ (v : string) (c : Converter) : Converter :=
  {| index_ch_in_html_ := index_ch_in_html_ c; dom_tags_ := dom_tags_ c;
     is_in_tag_ := is_in_tag_ c; is_closing_tag_ := is_closing_tag_ c;
     is_in_attribute_value_ := is_in_attribute_value_ c; is_in_pre_ := is_in_pre_ c;
     is_in_code_ := is_in_code_ c; is_in_table_ := is_in_table_ c;
     is_in_list_ := is_in_list_ c; is_in_ordered_list_ := is_in_ordered_list_ c;
     index_li := index_li c; index_blockquote := index_blockquote c;
     prev_ch_in_md_ := prev_ch_in_md_ c; prev_prev_ch_in_md_ := prev_prev_ch_in_md_ c;
     prev_ch_in_html_ := prev_ch_in_html_ c; html_ := html_ c; offset_lt_ := offset_lt_ c;
     current_tag_ := v; prev_tag_ := prev_tag_ c; current_attribute_ := current_attribute_ c;
     current_attribute_value_ := current_attribute_value_ c; current_href_ := current_href_ c;
     current_title_ := current_title_ c; current_alt_ := current_alt_ c;
     current_src_ := current_src_ c; tableLine := tableLine c;
     chars_in_curr_line_ := chars_in_curr_line_ c;
     char_index_in_tag_content := char_index_in_tag_content c; md_ := md_ c;
     md_len_ := md_len_ c |}.

Definition set_prev_tag_ (v : string) (c : Converter) : Converter :=
  {| index_ch_in_html_ := index_ch_in_html_ c; dom_tags_ := dom_tags_ c;
     is_in_tag_ := is_in_tag_ c; is_closing_tag_ := is_closing_tag_ c;
     is_in_attribute_value_ := is_in_attribute_value_ c; is_in_pre_ := is_in_pre_ c;
     is_in_code_ := is_in_code_ c; is_in_table_ := is_in_table_ c;
     is_in_list_ := is_in_list_ c; is_in_ordered_list_ := is_in_ordered_list_ c;
     index_li := index_li c; index_blockquote := index_blockquote c;
     prev_ch_in_md_ := prev_ch_in_md_ c; prev_prev_ch_in_md_ := prev_prev_ch_in_md_ c;
     prev_ch_in_html_ := prev_ch_in_html_ c; html_ := html_ c; offset_lt_ := offset_lt_ c;
     current_tag_ := current_tag_ c; prev_tag_ := v;
     current_attribute_ := current_attribute_ c;
     current_attribute_value_ := current_attribute_value_ c; current_href_ := current_href_ c;
     current_title_ := current_title_ c; current_alt_ := current_alt_ c;
     current_src_ := current_src_ c; tableLine := tableLine c;
     chars_in_curr_line_ := chars_in_curr_line_ c;
     char_index_in_tag_content := char_index_in_tag_content c; md_ := md_ c;
     md_len_ := md_len_ c |}.

Definition set_current_attribute_value_ (v : string) (c : Converter) : Converter :=
  {| index_ch_in_html_ := index_ch_in_html_ c; dom_tags_ := dom_tags_ c;
     is_in_tag_ := is_in_tag_ c; is_closing_tag_ := is_closing_tag_ c;
     is_in_attribute_value_ := is_in_attribute_value_ c; is_in_pre_ := is_in_pre_ c;
     is_in_code_ := is_in_code_ c; is_in_table_ := is_in_table_ c;
     is_in_list_ := is_in_list_ c; is_in_ordered_list_ := is_in_ordered_list_ c;
     index_li := index_li c; index_blockquote := index_blockquote c;
     prev_ch_in_md_ := prev_ch_in_md_ c; prev_prev_ch_in_md_ := prev_prev_ch_in_md_ c;
     prev_ch_in_html_ := prev_ch_in_html_ c; html_ := html_ c; offset_lt_ := offset_lt_ c;
     current_tag_ := current_tag_ c; prev_tag_ := prev_tag_ c;
     current_attribute_ := current_attribute_ c; current_attribute_value_ := v;
     current_href_ := current_href_ c; current_title_ := current_title_ c;
     current_alt_ := current_alt_ c; current_src_ := current_src_ c; tableLine := tableLine c;
     chars_in_curr_line_ := chars_in_curr_line_ c;
     char_index_in_tag_content := char_index_in_tag_content c; md_ := md_ c;
     md_len_ := md_len_ c |}.

Definition set_current_href_ (v : string) (c : Converter) : Converter :=
  {| index_ch_in_html_ := index_ch_in_html_ c; dom_tags_ := dom_tags_ c;
     is_in_tag_ := is_in_tag_ c; is_closing_tag_ := is_closing_tag_ c;
     is_in_attribute_value_ := is_in_attribute_value_ c; is_in_pre_ := is_in_pre_ c;
     is_in_code_ := is_in_code_ c; is_in_table_ := is_in_table_ c;
     is_in_list_ := is_in_list_ c; is_in_ordered_list_ := is_in_ordered_list_ c;
     index_li := index_li c; index_blockquote := index_blockquote c;
     prev_ch_in_md_ := prev_ch_in_md_ c; prev_prev_ch_in_md_ := prev_prev_ch_in_md_ c;
     prev_ch_in_html_ := prev_ch_in_html_ c; html_ := html_ c; offset_lt_ := offset_lt_ c;
     current_tag_ := current_tag_ c; prev_tag_ := prev_tag_ c;
     current_attribute_ := current_attribute_ c;
     current_attribute_value_ := current_attribute_value_ c; current_href_ := v;
     current_title_ := current_title_ c; current_alt_ := current_alt_ c;
     current_src_ := current_src_ c; tableLine := tableLine c;
     chars_in_curr_line_ := chars_in_curr_line_ c;
     char_index_in_tag_content := char_index_in_tag_content c; md_ := md_ c;
     md_len_ := md_len_ c |}.

Definition set_current_title_ (v : string) (c : Converter) : Converter :=
  {| index_ch_in_html_ := index_ch_in_html_ c; dom_tags_ := dom_tags_ c;
     is_in_tag_ := is_in_tag_ c; is_closing_tag_ := is_closing_tag_ c;
     is_in_attribute_value_ := is_in_attribute_value_ c; is_in_pre_ := is_in_pre_ c;
     is_in_code_ := is_in_code_ c; is_in_table_ := is_in_table_ c;
     is_in_list_ := is_in_list_ c; is_in_ordered_list_ := is_in_ordered_list_ c;
     index_li := index_li c; index_blockquote := index_blockquote c;
     prev_ch_in_md_ := prev_ch_in_md_ c; prev_prev_ch_in_md_ := prev_prev_ch_in_md_ c;
     prev_ch_in_html_ := prev_ch_in_html_ c; html_ := html_ c; offset_lt_ := offset_lt_ c;
     current_tag_ := current_tag_ c; prev_tag_ := prev_tag_ c;
     current_attribute_ := current_attribute_ c;
     current_attribute_value_ := current_attribute_value_ c; current_href_ := current_href_ c;
     current_title_ := v; current_alt_ := current_alt_ c; current_src_ := current_src_ c;
     tableLine := tableLine c; chars_in_curr_line_ := chars_in_curr_line_ c;
     char_index_in_tag_content := char_index_in_tag_content c; md_ := md_ c;
     md_len_ := md_len_ c |}.

Definition set_tableLine (v : string) (c : Converter) : Converter :=
  {| index_ch_in_html_ := index_ch_in_html_ c; dom_tags_ := dom_tags_ c;
     is_in_tag_ := is_in_tag_ c; is_closing_tag_ := is_closing_tag_ c;
     is_in_attribute_value_ := is_in_attribute_value_ c; is_in_pre_ := is_in_pre_ c;
     is_in_code_ := is_in_code_ c; is_in_table_ := is_in_table_ c;
     is_in_list_ := is_in_list_ c; is_in_ordered_list_ := is_in_ordered_list_ c;
     index_li := index_li c; index_blockquote := index_blockquote c;
     prev_ch_in_md_ := prev_ch_in_md_ c; prev_prev_ch_in_md_ := prev_prev_ch_in_md_ c;
     prev_ch_in_html_ := prev_ch_in_html_ c; html_ := html_ c; offset_lt_ := offset_lt_ c;
     current_tag_ := current_tag_ c; prev_tag_ := prev_tag_ c;
     current_attribute_ := current_attribute_ c;
     current_attribute_value_ := current_attribute_value_ c; current_href_ := current_href_ c;
     current_title_ := current_title_ c; current_alt_ := current_alt_ c;
     current_src_ := current_src_ c; tableLine := v;
     chars_in_curr_line_ := chars_in_curr_line_ c;
     char_index_in_tag_content := char_index_in_tag_content c; md_ := md_ c;
     md_len_ := md_len_ c |}.

Definition set_chars_in_curr_line_ (v : Z) (c : Converter) : Converter :=
  {| index_ch_in_html_ := index_ch_in_html_ c; dom_tags_ := dom_tags_ c;
     is_in_tag_ := is_in_tag_ c; is_closing_tag_ := is_closing_tag_ c;
     is_in_attribute_value_ := is_in_attribute_value_ c; is_in_pre_ := is_in_pre_ c;
     is_in_code_ := is_in_code_ c; is_in_table_ := is_in_table_ c;
     is_in_list_ := is_in_list_ c; is_in_ordered_list_ := is_in_ordered_list_ c;
     index_li := index_li c; index_blockquote := index_blockquote c;
     prev_ch_in_md_ := prev_ch_in_md_ c; prev_prev_ch_in_md_ := prev_prev_ch_in_md_ c;
     prev_ch_in_html_ := prev_ch_in_html_ c; html_ := html_ c; offset_lt_ := offset_lt_ c;
     current_tag_ := current_tag_ c; prev_tag_ := prev_tag_ c;
     current_attribute_ := current_attribute_ c;
     current_attribute_value_ := current_attribute_value_ c; current_href_ := current_href_ c;
     current_title_ := current_title_ c; current_alt_ := current_alt_ c;
     current_src_ := current_src_ c; tableLine := tableLine c; chars_in_curr_line_ := v;
     char_index_in_tag_content := char_index_in_tag_content c; md_ := md_ c;
     md_len_ := md_len_ c |}.

Definition set_char_index_in_tag_content (v : Z) (c : Converter) : Converter :=
  {| index_ch_in_html_ := index_ch_in_html_ c; dom_tags_ := dom_tags_ c;
     is_in_tag_ := is_in_tag_ c; is_closing_tag_ := is_closing_tag_ c;
     is_in_attribute_value_ := is_in_attribute_value_ c; is_in_pre_ := is_in_pre_ c;
     is_in_code_ := is_in_code_ c; is_in_table_ := is_in_table_ c;
     is_in_list_ := is_in_list_ c; is_in_ordered_list_ := is_in_ordered_list_ c;
     index_li := index_li c; index_blockquote := index_blockquote c;
     prev_ch_in_md_ := prev_ch_in_md_ c; prev_prev_ch_in_md_ := prev_prev_ch_in_md_ c;
     prev_ch_in_html_ := prev_ch_in_html_ c; html_ := html_ c; offset_lt_ := offset_lt_ c;
     current_tag_ := current_tag_ c; prev_tag_ := prev_tag_ c;
     current_attribute_ := current_attribute_ c;
     current_attribute_value_ := current_attribute_value_ c; current_href_ := current_href_ c;
     current_title_ := current_title_ c; current_alt_ := current_alt_ c;
     current_src_ := current_src_ c; tableLine := tableLine c;
     chars_in_curr_line_ := chars_in_curr_line_ c; char_index_in_tag_content := v;
     md_ := md_ c; md_len_ := md_len_ c |}.

Definition set_md_ (v : string) (c : Converter) : Converter :=
  {| index_ch_in_html_ := index_ch_in_html_ c; dom_tags_ := dom_tags_ c;
     is_in_tag_ := is_in_tag_ c; is_closing_tag_ := is_closing_tag_ c;
     is_in_attribute_value_ := is_in_attribute_value_ c; is_in_pre_ := is_in_pre_ c;
     is_in_code_ := is_in_code_ c; is_in_table_ := is_in_table_ c;
     is_in_list_ := is_in_list_ c; is_in_ordered_list_ := is_in_ordered_list_ c;
     index_li := index_li c; index_blockquote := index_blockquote c;
     prev_ch_in_md_ := prev_ch_in_md_ c; prev_prev_ch_in_md_ := prev_prev_ch_in_md_ c;
     prev_ch_in_html_ := prev_ch_in_html_ c; html_ := html_ c; offset_lt_ := offset_lt_ c;
     current_tag_ := current_tag_ c; prev_tag_ := prev_tag_ c;
     current_attribute_ := current_attribute_ c;
     current_attribute_value_ := current_attribute_value_ c; current_href_ := current_href_ c;
     current_title_ := current_title_ c; current_alt_ := current_alt_ c;
     current_src_ := current_src_ c; tableLine := tableLine c;
     chars_in_curr_line_ := chars_in_curr_line_ c;
     char_index_in_tag_content := char_index_in_tag_content c; md_ := v;
     md_len_ := md_len_ c |}.

Definition set_md_len_ (v : Z) (c : Converter) : Converter :=
  {| index_ch_in_html_ := index_ch_in_html_ c; dom_tags_ := dom_tags_ c;
     is_in_tag_ := is_in_tag_ c; is_closing_tag_ := is_closing_tag_ c;
     is_in_attribute_value_ := is_in_attribute_value_ c; is_in_pre_ := is_in_pre_ c;
     is_in_code_ := is_in_code_ c; is_in_table_ := is_in_table_ c;
     is_in_list_ := is_in_list_ c; is_in_ordered_list_ := is_in_ordered_list_ c;
     index_li := index_li c; index_blockquote := index_blockquote c;
     prev_ch_in_md_ := prev_ch_in_md_ c; prev_prev_ch_in_md_ := prev_prev_ch_in_md_ c;
     prev_ch_in_html_ := prev_ch_in_html_ c; html_ := html_ c; offset_lt_ := offset_lt_ c;
     current_tag_ := current_tag_ c; prev_tag_ := prev_tag_ c;
     current_attribute_ := current_attribute_ c;
     current_attribute_value_ := current_attribute_value_ c; current_href_ := current_href_ c;
     current_title_ := current_title_ c; current_alt_ := current_alt_ c;
     current_src_ := current_src_ c; tableLine := tableLine c;
     chars_in_curr_line_ := chars_in_curr_line_ c;
     char_index_in_tag_content := char_index_in_tag_content c; md_ := md_ c; md_len_ := v |}.

(** The initial state: the default member initialisers of the class, with
    the HTML to convert ([offset_lt_] has no initialiser; it is written
    before it is read). *)
Definition Converter_init (html : string) : Converter :=
  {| index_ch_in_html_ := 0; dom_tags_ := [];
     is_in_tag_ := false; is_closing_tag_ := false; is_in_attribute_value_ := false;
     is_in_pre_ := false; is_in_code_ := false; is_in_table_ := false;
     is_in_list_ := false; is_in_ordered_list_ := false;
     index_li := 0; index_blockquote := 0;
     prev_ch_in_md_ := NUL; prev_prev_ch_in_md_ := NUL; prev_ch_in_html_ := "x"%char;
     html_ := html; offset_lt_ := 0;
     current_tag_ := EmptyString; prev_tag_ := EmptyString;
     current_attribute_ := EmptyString; current_attribute_value_ := EmptyString;
     current_href_ := EmptyString; current_title_ := EmptyString;
     current_alt_ := EmptyString; current_src_ := EmptyString;
     tableLine := EmptyString; chars_in_curr_line_ := 0; char_index_in_tag_content := 0;
     md_ := EmptyString; md_len_ := 0 |}.

(** ** Attribute and tag names (the [k...] constants) *)

Definition kAttributeHref := "href".
Definition kAttributeAlt := "alt".
Definition kAttributeTitle := "title".
Definition kAttributeClass := "class".
Definition kAttributeSrc := "src".
Definition kAttrinuteAlign := "align".

Definition kTagAnchor := "a".
Definition kTagBreak := "br".
Definition kTagCode := "code".
Definition kTagDiv := "div".
Definition kTagHead := "head".
Definition kTagLink := "link".
Definition kTagListItem := "li".
Definition kTagMeta := "meta".
Definition kTagNav := "nav".
Definition kTagNoScript := "noscript".
Definition kTagOption := "option".
Definition kTagOrderedList := "ol".
Definition kTagParagraph := "p".
Definition kTagPre := "pre".
Definition kTagScript := "script".
Definition kTagSpan := "span".
Definition kTagStyle := "style".
Definition kTagTemplate := "template".
Definition kTagTitle := "title".
Definition kTagUnorderedList := "ul".
Definition kTagImg := "img".
Definition kTagSeperator := "hr".
Definition kTagBold := "b".
Definition kTagStrong := "strong".
Definition kTagItalic := "em".
Definition kTagItalic2 := "i".
Definition kTagCitation := "cite".
Definition kTagDefinition := "dfn".
Definition kTagUnderline := "u".
Definition kTagStrighthrought := "del".
Definition kTagStrighthrought2 := "s".
Definition kTagBlockquote := "blockquote".
Definition kTagHeader1 := "h1".
Definition kTagHeader2 := "h2".
Definition kTagHeader3 := "h3".
Definition kTagHeader4 := "h4".
Definition kTagHeader5 := "h5".
Definition kTagHeader6 := "h6".
Definition kTagTable := "table".
Definition kTagTableRow := "tr".
Definition kTagTableHeader := "th".
Definition kTagTableData := "td".

(** ** The ancestry predicates *)

(** [tag[0]]: the first character, NUL for the empty string. *)
Definition front (tag : string) : ascii :=
  match tag with
  | EmptyString => NUL
  | String ch _ => ch
  end.

Definition IsIgnoredTag (tag : string) : bool :=
  (Ascii.eqb (front tag) "-"%char
   || (kTagTemplate =? tag)%string
   || (kTagStyle =? tag)%string
   || (kTagScript =? tag)%string
   || (kTagNoScript =? tag)%string
   || (kTagNav =? tag)%string)%bool.

(** The loop of [IsInIgnoredTag] over [dom_tags_], from index 0 upwards. *)
Fixpoint IsInIgnoredTag_from (tags : list string) : bool :=
  match tags with
  | [] => false
  | tag :: rest =>
      if ((kTagPre =? tag)%string || (kTagTitle =? tag)%string)%bool then false
      else if IsIgnoredTag tag then true
      else IsInIgnoredTag_from rest
  end.

Definition IsInIgnoredTag (c : Converter) : bool :=
  IsInIgnoredTag_from (dom_tags_ c).

(** [TagContainsAttributesToHide], inline in the header. *)
Definition contains (needle hay : string) : bool :=
  match index 0 needle hay with
  | Some _ => true
  | None => false
  end.

Definition TagContainsAttributesToHide (tag : string) : bool :=
  (contains (" aria=" ++ dq ++ "hidden" ++ dq) tag
   || contains "display:none" tag
   || contains "visibility:hidden" tag
   || contains "opacity:0" tag
   || contains "Details-content--hidden-not-important" tag)%bool.

(** ** The output buffer

    The header declares [AppendToMd], [AppendBlank], [ShortenMarkdown],
    [RTrim], [UpdatePrevChFromMd], [ReplacePreviousSpaceInLineByNewline],
    [ExtractAttributeFromTagLeftOf] and [TurnLineIntoHeader1]; their bodies
    are not part of the sources. *)

(** [UpdateMdLen], inline in the header: [md_len_ = md_.length()]. *)
Definition UpdateMdLen (c : Converter) : Converter :=
  c |> set_md_len_ (str_len (md_ c)).

(** Modelled from the spec: the body of [Converter::UpdatePrevChFromMd] is
    missing.  The Output Buffer exposes the last two characters written; a
    position the buffer does not have reads as NUL, the initial value of
    both members. *)
Definition UpdatePrevChFromMd (c : Converter) : Converter :=
  c |> set_prev_ch_in_md_ (last_ch (md_ c))
    |> set_prev_prev_ch_in_md_ (last2_ch (md_ c)).

(** Modelled from the spec: the controlled write to the Output Buffer that
    the missing append and shorten operations share.  The buffer is replaced
    and its length, the length of its current line and the last two
    characters are brought up to date, so that the tracking stays consistent
    (Data Model, OutputBuffer). *)
Definition write_md (m : string) (c : Converter) : Converter :=
  c |> set_md_ m
    |> UpdateMdLen
    |> set_chars_in_curr_line_ (Z.of_nat (curr_line_len (chars m) 0))
    |> UpdatePrevChFromMd.

(** Modelled from the spec: the body of [Converter::AppendToMd(char)] is
    missing; it appends one character to the Output Buffer. *)
Definition AppendToMd_ch (ch : ascii) (c : Converter) : Converter :=
  write_md (md_ c ++ String ch EmptyString) c.

(** Modelled from the spec: the body of [Converter::AppendToMd(const char* )]
    is missing; it appends a C string to the Output Buffer. *)
Definition AppendToMd (s : string) (c : Converter) : Converter :=
  write_md (md_ c ++ s) c.

(** [AppendToMd(const std::string &s)], inline in the header:
    [return AppendToMd(s.c_str());]. *)
Definition AppendToMd_string (s : string) (c : Converter) : Converter :=
  AppendToMd (c_str s) c.

(** Modelled from the spec: the body of [Converter::AppendBlank] is missing.
    Its documentation in the header: a blank is appended if md does not end
    with '*' and does not end with a newline. *)
Definition AppendBlank (c : Converter) : Converter :=
  let c1 := UpdatePrevChFromMd c in
  if (Ascii.eqb (prev_ch_in_md_ c1) "*"%char || Ascii.eqb (prev_ch_in_md_ c1) ch_nl)%bool
  then c1
  else AppendToMd_ch " "%char c1.

(** Modelled from the spec: the body of [Converter::ShortenMarkdown(chars)]
    is missing; it removes the last [chars] characters of the Output Buffer
    (all of them when the buffer is shorter). *)
Definition ShortenMarkdown (n : Z) (c : Converter) : Converter :=
  let l := chars (md_ c) in
  write_md (of_chars (firstn (List.length l - Z.to_nat n) l)) c.

(** Modelled from the spec: the bodies of [LTrim], [RTrim] and [Trim] are
    missing (trim from start, from end, from both ends; [RTrim] removes only
    blanks when [trim_only_blank] is set, white space otherwise). *)
Fixpoint drop_while {A : Type} (p : A -> bool) (l : list A) : list A :=
  match l with
  | [] => []
  | x :: l' => if p x then drop_while p l' else l
  end.

Fixpoint drop_while_end {A : Type} (p : A -> bool) (l : list A) : list A :=
  match l with
  | [] => []
  | x :: l' =>
      match drop_while_end p l' with
      | [] => if p x then [] else [x]
      | kept => x :: kept
      end
  end.

Definition is_blank (ch : ascii) : bool := Ascii.eqb ch " "%char.

Definition LTrim (l : list ascii) : list ascii := drop_while isspace l.

Definition RTrim (l : list ascii) (trim_only_blank : bool) : list ascii :=
  drop_while_end (if trim_only_blank then is_blank else isspace) l.

Definition Trim (l : list ascii) : list ascii := LTrim (RTrim l false).

(** [RTrim(&converter->md_, trim_only_blank)]: the trim applied to the
    Output Buffer, as the anchor handler calls it. *)
Definition RTrim_md (trim_only_blank : bool) (c : Converter) : Converter :=
  write_md (of_chars (RTrim (chars (md_ c)) trim_only_blank)) c.

(** Modelled from the spec: the body of
    [Converter::ReplacePreviousSpaceInLineByNewline] is missing.  The header
    comment: replace previous space (if any) in current markdown line by
    newline.  The scan runs from the end of the buffer towards the start of
    its last line. *)
Fixpoint replace_space_rev (l : list ascii) : list ascii :=
  match l with
  | [] => []
  | ch :: l' =>
      if Ascii.eqb ch ch_nl then l
      else if Ascii.eqb ch " "%char then ch_nl :: l'
      else ch :: replace_space_rev l'
  end.

Definition ReplacePreviousSpaceInLineByNewline (c : Converter) : Converter :=
  write_md (of_chars (rev (replace_space_rev (rev (chars (md_ c)))))) c.

(** Modelled from the spec: the body of
    [Converter::ExtractAttributeFromTagLeftOf] is missing.  The attribute is
    looked up in the raw text of the tag, from the offset of its '<' to the
    scan cursor; its value is what stands between the quotes after
    [attr=]; a missing attribute gives the empty string. *)
Fixpoint take_until (q : ascii) (s : string) : string :=
  match s with
  | EmptyString => EmptyString
  | String ch s' => if Ascii.eqb ch q then EmptyString else String ch (take_until q s')
  end.

Definition tag_text (c : Converter) : string :=
  substring (Z.to_nat (offset_lt_ c))
            (Z.to_nat (index_ch_in_html_ c - offset_lt_ c)) (html_ c).

Definition ExtractAttributeFromTagLeftOf (attr : string) (c : Converter) : string :=
  let tag := tag_text c in
  match index 0 (attr ++ "=") tag with
  | None => EmptyString
  | Some i =>
      match erase_front (i + String.length attr + 1) tag with
      | EmptyString => EmptyString
      | String q rest => if is_quote q then take_until q rest else EmptyString
      end
  end.

(** Modelled from the spec: the body of [Converter::TurnLineIntoHeader1] is
    missing; it promotes the just-written line to a level-1 heading, here by
    underlining the current line with '=' (the append-only way). *)
Definition TurnLineIntoHeader1 (fuel : nat) (c : Converter) : option Converter :=
  underline <- utils.Repeat fuel "=" (chars_in_curr_line_ c) ;;
  Some (c |> AppendToMd nl |> AppendToMd_string underline |> AppendToMd (nl ++ nl)).

(** ** The tag handlers

    One module per handler struct of the header, each with
    [OnHasLeftOpeningTag] and [OnHasLeftClosingTag].  The three handlers that
    call [utils::Repeat] take the fuel of its loop. *)

Definition ch_eq (a b : ascii) : bool := Ascii.eqb a b.
Definition ch_ne (a b : ascii) : bool := negb (Ascii.eqb a b).
Definition str_eq (a b : string) : bool := String.eqb a b.
Definition str_ne (a b : string) : bool := negb (String.eqb a b).

(** [if (cond) statement;] *)
Definition when (cond : bool) (f : Converter -> Converter) (c : Converter) : Converter :=
  if cond then f c else c.

Module TagIgnored.
Definition OnHasLeftOpeningTag (c : Converter) : Converter := c.
Definition OnHasLeftClosingTag (c : Converter) : Converter := c.
End TagIgnored.

Module TagAnchor.
Definition OnHasLeftOpeningTag (c : Converter) : Converter :=
  if IsInIgnoredTag c then c
  else
    let c1 := when (str_eq (prev_tag_ c) kTagImg) (AppendToMd_ch ch_nl) c in
    let c2 := set_current_title_ (ExtractAttributeFromTagLeftOf kAttributeTitle c1) c1 in
    let c3 := c2 |> RTrim_md true |> AppendBlank |> AppendToMd "[" in
    set_current_href_ (ExtractAttributeFromTagLeftOf kAttributeHref c3) c3.

Definition OnHasLeftClosingTag (c : Converter) : Converter :=
  if IsInIgnoredTag c then c
  else
    let c1 := when (ch_eq (prev_ch_in_md_ c) " "%char) (ShortenMarkdown 1) c in
    if ch_eq (prev_ch_in_md_ c1) "["%char then ShortenMarkdown 1 c1
    else
      let c2 := c1 |> AppendToMd "](" |> AppendToMd_string (current_href_ c1) in
      let c3 :=
        if negb (empty (current_title_ c2))
        then c2 |> AppendToMd (" " ++ dq)
                |> AppendToMd_string (current_title_ c2)
                |> AppendToMd_ch ch_dquote
        else c2 in
      let c4 := AppendToMd ") " c3 in
      when (str_eq (prev_tag_ c4) kTagImg) (AppendToMd_ch ch_nl) c4.
End TagAnchor.

Module TagBold.
Definition OnHasLeftOpeningTag (c : Converter) : Converter :=
  c |> when (ch_ne (prev_ch_in_md_ c) " "%char) AppendBlank |> AppendToMd "**".
Definition OnHasLeftClosingTag (c : Converter) : Converter :=
  c |> when (ch_eq (prev_ch_in_md_ c) " "%char) (ShortenMarkdown 1) |> AppendToMd "** ".
End TagBold.

Module TagItalic.
Definition OnHasLeftOpeningTag (c : Converter) : Converter :=
  c |> when (ch_ne (prev_ch_in_md_ c) " "%char) AppendBlank |> AppendToMd_ch "*"%char.
Definition OnHasLeftClosingTag (c : Converter) : Converter :=
  c |> when (ch_eq (prev_ch_in_md_ c) " "%char) (ShortenMarkdown 1) |> AppendToMd "* ".
End TagItalic.

Module TagUnderline.
Definition OnHasLeftOpeningTag (c : Converter) : Converter :=
  c |> when (ch_eq (prev_prev_ch_in_md_ c) " "%char && ch_eq (prev_ch_in_md_ c) " "%char)
            (ShortenMarkdown 1)
    |> AppendToMd "<u>".
Definition OnHasLeftClosingTag (c : Converter) : Converter :=
  c |> when (ch_eq (prev_ch_in_md_ c) " "%char) (ShortenMarkdown 1) |> AppendToMd "</u>".
End TagUnderline.

Module TagStrikethrought.
Definition OnHasLeftOpeningTag (c : Converter) : Converter :=
  c |> when (ch_ne (prev_ch_in_md_ c) " "%char) AppendBlank |> AppendToMd_ch "~"%char.
Definition OnHasLeftClosingTag (c : Converter) : Converter :=
  c |> when (ch_eq (prev_ch_in_md_ c) " "%char) (ShortenMarkdown 1) |> AppendToMd "~ ".
End TagStrikethrought.

Module TagBreak.
Definition OnHasLeftOpeningTag (fuel : nat) (c : Converter) : option Converter :=
  let c1 :=
    if is_in_table_ c
    then c |> when (ch_eq (prev_ch_in_md_ c) " "%char) (ShortenMarkdown 1)
           |> AppendToMd "<br>"
    else when (md_len_ c >? 0) (AppendToMd ("  " ++ nl)) c in
  prefix <- utils.Repeat fuel "> " (to_size_t (index_blockquote c1)) ;;
  Some (AppendToMd_string prefix c1).
Definition OnHasLeftClosingTag (c : Converter) : Converter := c.
End TagBreak.

Module TagDiv.
Definition OnHasLeftOpeningTag (c : Converter) : Converter :=
  let c1 := when (ch_ne (prev_ch_in_md_ c) ch_nl) (AppendToMd_ch ch_nl) c in
  when (ch_ne (prev_prev_ch_in_md_ c1) ch_nl) (AppendToMd_ch ch_nl) c1.
Definition OnHasLeftClosingTag (c : Converter) : Converter := c.
End TagDiv.

(** [TagHeader1] to [TagHeader6] differ in the number of '#' only. *)
Definition Header_OnHasLeftOpeningTag (marks : string) (c : Converter) : Converter :=
  AppendToMd (nl ++ marks ++ " ") c.
Definition Header_OnHasLeftClosingTag (c : Converter) : Converter :=
  when (ch_ne (prev_prev_ch_in_md_ c) " "%char) (AppendToMd_ch ch_nl) c.

Module TagHeader1.
Definition OnHasLeftOpeningTag := Header_OnHasLeftOpeningTag "#".
Definition OnHasLeftClosingTag := Header_OnHasLeftClosingTag.
End TagHeader1.
Module TagHeader2.
Definition OnHasLeftOpeningTag := Header_OnHasLeftOpeningTag "##".
Definition OnHasLeftClosingTag := Header_OnHasLeftClosingTag.
End TagHeader2.
Module TagHeader3.
Definition OnHasLeftOpeningTag := Header_OnHasLeftOpeningTag "###".
Definition OnHasLeftClosingTag := Header_OnHasLeftClosingTag.
End TagHeader3.
Module TagHeader4.
Definition OnHasLeftOpeningTag := Header_OnHasLeftOpeningTag "####".
Definition OnHasLeftClosingTag := Header_OnHasLeftClosingTag.
End TagHeader4.
Module TagHeader5.
Definition OnHasLeftOpeningTag := Header_OnHasLeftOpeningTag "#####".
Definition OnHasLeftClosingTag := Header_OnHasLeftClosingTag.
End TagHeader5.
Module TagHeader6.
Definition OnHasLeftOpeningTag := Header_OnHasLeftOpeningTag "######".
Definition OnHasLeftClosingTag := Header_OnHasLeftClosingTag.
End TagHeader6.

Module TagListItem.
Definition OnHasLeftOpeningTag (c : Converter) : Converter :=
  if is_in_table_ c then c
  else if negb (is_in_ordered_list_ c) then AppendToMd "- " c
  else
    let c1 := set_index_li (wrap_int (index_li c + 1)) c in
    let num := to_string (index_li c1) ++ ". " in
    AppendToMd_string num c1.
Definition OnHasLeftClosingTag (c : Converter) : Converter :=
  if is_in_table_ c then c
  else when (ch_ne (prev_ch_in_md_ c) ch_nl) (AppendToMd_ch ch_nl) c.
End TagListItem.

Module TagOption.
Definition OnHasLeftOpeningTag (c : Converter) : Converter := c.
Definition OnHasLeftClosingTag (c : Converter) : Converter :=
  when (md_len_ c >? 0) (AppendToMd ("  " ++ nl)) c.
End TagOption.

Module TagOrderedList.
Definition OnHasLeftOpeningTag (c : Converter) : Converter :=
  if is_in_table_ c then c
  else
    c |> set_is_in_list_ true
      |> set_is_in_ordered_list_ true
      |> set_index_li 0
      |> ReplacePreviousSpaceInLineByNewline
      |> AppendToMd_ch ch_nl.
Definition OnHasLeftClosingTag (c : Converter) : Converter :=
  if is_in_table_ c then c
  else
    c |> set_is_in_list_ false
      |> set_is_in_ordered_list_ false
      |> AppendToMd_ch ch_nl.
End TagOrderedList.

Module TagParagraph.
Definition OnHasLeftOpeningTag (fuel : nat) (c : Converter) : option Converter :=
  let c1 :=
    if (is_in_list_ c && str_eq (prev_tag_ c) kTagParagraph)%bool
    then AppendToMd (nl ++ tab) c
    else if (negb (is_in_list_ c) && (index_blockquote c =? 0))%bool
    then AppendToMd_ch ch_nl c
    else c in
  if index_blockquote c1 >? 0
  then
    let c2 := AppendToMd ("> " ++ nl) c1 in
    prefix <- utils.Repeat fuel "> " (to_size_t (index_blockquote c2)) ;;
    Some (AppendToMd_string prefix c2)
  else Some c1.
Definition OnHasLeftClosingTag (c : Converter) : Converter :=
  when (negb (empty (md_ c))) (AppendToMd_ch ch_nl) c.
End TagParagraph.

Module TagPre.
Definition OnHasLeftOpeningTag (fuel : nat) (c : Converter) : option Converter :=
  let c1 := set_is_in_pre_ true c in
  let c2 := when (ch_ne (prev_ch_in_md_ c1) ch_nl) (AppendToMd nl) c1 in
  let c3 := when (ch_ne (prev_prev_ch_in_md_ c2) ch_nl) (AppendToMd nl) c2 in
  c4 <- (if negb (index_blockquote c3 =? 0)
         then prefix <- utils.Repeat fuel "> " (to_size_t (index_blockquote c3)) ;;
              Some (c3 |> AppendToMd_string prefix |> ShortenMarkdown 1)
         else Some c3) ;;
  let c5 := when (is_in_list_ c4 && str_ne (prev_tag_ c4) kTagParagraph)
                 (ShortenMarkdown 2) c4 in
  Some (if (is_in_list_ c5 || negb (index_blockquote c5 =? 0))%bool
        then AppendToMd (tab ++ tab) c5
        else AppendToMd "```" c5).
Definition OnHasLeftClosingTag (c : Converter) : Converter :=
  let c1 := set_is_in_pre_ false c in
  when (negb (is_in_list_ c1) && (index_blockquote c1 =? 0)) (AppendToMd ("```" ++ nl)) c1.
End TagPre.

Module TagCode.
Definition OnHasLeftOpeningTag (c : Converter) : Converter :=
  let c1 := set_is_in_code_ true c in
  if is_in_pre_ c1
  then
    let c2 := when (ch_eq (prev_ch_in_md_ c1) " "%char) (ShortenMarkdown 1) c1 in
    if (is_in_list_ c2 || negb (index_blockquote c2 =? 0))%bool then c2
    else
      let code := ExtractAttributeFromTagLeftOf kAttributeClass c2 in
      let c3 :=
        if negb (empty code)
        then AppendToMd_string (erase_front 9 code) c2 (* remove language- *)
        else c2 in
      AppendToMd_ch ch_nl c3
  else AppendToMd_ch "`"%char c1.
Definition OnHasLeftClosingTag (c : Converter) : Converter :=
  let c1 := set_is_in_code_ false c in
  if is_in_pre_ c1 then c1
  else c1 |> when (ch_eq (prev_ch_in_md_ c1) " "%char) (ShortenMarkdown 1)
          |> AppendToMd "` ".
End TagCode.

Module TagSpan.
Definition OnHasLeftOpeningTag (c : Converter) : Converter := c.
Definition OnHasLeftClosingTag (c : Converter) : Converter :=
  when (ch_ne (prev_ch_in_md_ c) " "%char && (char_index_in_tag_content c >? 0))
       AppendBlank c.
End TagSpan.

Module TagTitle.
Definition OnHasLeftOpeningTag (c : Converter) : Converter := c.
Definition OnHasLeftClosingTag (fuel : nat) (c : Converter) : option Converter :=
  TurnLineIntoHeader1 fuel c.
End TagTitle.

Module TagUnorderedList.
Definition OnHasLeftOpeningTag (c : Converter) : Converter :=
  if (is_in_list_ c || is_in_table_ c)%bool then c
  else c |> set_is_in_list_ true |> AppendToMd_ch ch_nl.
Definition OnHasLeftClosingTag (c : Converter) : Converter :=
  if is_in_table_ c then c
  else
    let c1 := set_is_in_list_ false c in
    let pp := prev_prev_ch_in_md_ c1 in
    let c2 :=
      when ((ch_eq pp "*"%char || ch_eq pp "-"%char || ch_eq pp "+"%char
             || ch_eq pp "."%char || ch_eq pp ")"%char)
            && str_ne (prev_tag_ c1) kTagParagraph)
           (set_is_in_list_ true) c1 in
    if (ch_eq (prev_prev_ch_in_md_ c2) ch_nl && ch_eq (prev_ch_in_md_ c2) ch_nl)%bool
    then ShortenMarkdown 1 c2
    else when (ch_ne (prev_ch_in_md_ c2) ch_nl) (AppendToMd_ch ch_nl) c2.
End TagUnorderedList.

Module TagImage.
Definition OnHasLeftOpeningTag (c : Converter) : Converter :=
  let c1 := when (str_ne (prev_tag_ c) kTagAnchor && ch_ne (prev_ch_in_md_ c) ch_nl)
                 (AppendToMd_ch ch_nl) c in
  c1 |> AppendToMd "!["
     |> AppendToMd_string (ExtractAttributeFromTagLeftOf kAttributeAlt c1)
     |> AppendToMd "]("
     |> AppendToMd_string (ExtractAttributeFromTagLeftOf kAttributeSrc c1)
     |> AppendToMd ")".
Definition OnHasLeftClosingTag (c : Converter) : Converter :=
  when (str_eq (prev_tag_ c) kTagAnchor) (AppendToMd_ch ch_nl) c.
End TagImage.

Module TagSeperator.
Definition OnHasLeftOpeningTag (c : Converter) : Converter :=
  AppendToMd (nl ++ "---" ++ nl) c.
Definition OnHasLeftClosingTag (c : Converter) : Converter := c.
End TagSeperator.

Module TagTable.
Definition OnHasLeftOpeningTag (c : Converter) : Converter :=
  c |> set_is_in_table_ true |> AppendToMd_ch ch_nl.
Definition OnHasLeftClosingTag (c : Converter) : Converter :=
  c |> set_is_in_table_ false |> AppendToMd_ch ch_nl.
End TagTable.

Module TagTableRow.
Definition OnHasLeftOpeningTag (c : Converter) : Converter :=
  AppendToMd_ch ch_nl c.
Definition OnHasLeftClosingTag (c : Converter) : Converter :=
  let c1 := UpdatePrevChFromMd c in
  let c2 :=
    if ch_eq (prev_ch_in_md_ c1) "|"%char
    then AppendToMd_ch ch_nl c1 (* There's a bug *)
    else AppendToMd_ch "|"%char c1 in
  if negb (empty (tableLine c2))
  then
    let c3 := when (ch_ne (prev_ch_in_md_ c2) ch_nl) (AppendToMd_ch ch_nl) c2 in
    let c4 := set_tableLine (tableLine c3 ++ "|" ++ nl) c3 in
    c4 |> AppendToMd_string (tableLine c4) |> set_tableLine EmptyString
  else c2.
End TagTableRow.

Module TagTableHeader.
Definition OnHasLeftOpeningTag (c : Converter) : Converter :=
  let align := ExtractAttributeFromTagLeftOf kAttrinuteAlign c in
  let line := "| " in
  let line := if (str_eq align "left" || str_eq align "center")%bool
              then line ++ ":" else line in
  let line := line ++ "-" in
  let line := if (str_eq align "right" || str_eq align "center")%bool
              then line ++ ": " else line ++ " " in
  c |> set_tableLine (tableLine c ++ line) |> AppendToMd "| ".
Definition OnHasLeftClosingTag (c : Converter) : Converter := c.
End TagTableHeader.

Module TagTableData.
Definition OnHasLeftOpeningTag (c : Converter) : Converter :=
  when (ch_ne (prev_prev_ch_in_md_ c) "|"%char) (AppendToMd "| ") c.
Definition OnHasLeftClosingTag (c : Converter) : Converter := c.
End TagTableData.

Module TagBlockquote.
Definition OnHasLeftOpeningTag (c : Converter) : Converter :=
  let c1 := set_index_blockquote (wrap_short (index_blockquote c + 1)) c in
  when (index_blockquote c1 =? 1) (AppendToMd_ch ch_nl) c1.
Definition OnHasLeftClosingTag (c : Converter) : Converter :=
  set_index_blockquote (wrap_short (index_blockquote c - 1)) c.
End TagBlockquote.

(** ** Tag dispatch *)

(** The handler structs, subclasses of [struct Tag]. *)
Inductive Tag : Type :=
| tagIgnored | tagAnchor | tagBold | tagItalic | tagUnderline | tagStrikethrought
| tagBreak | tagDiv
| tagHeader1 | tagHeader2 | tagHeader3 | tagHeader4 | tagHeader5 | tagHeader6
| tagListItem | tagOption | tagOrderedList | tagParagraph | tagPre | tagCode
| tagSpan | tagTitle | tagUnorderedList | tagImage | tagSeperator
| tagTable | tagTableRow | tagTableHeader | tagTableData | tagBlockquote.

(** The virtual call [tag->OnHasLeftOpeningTag(this)]. *)
Definition OnHasLeftOpeningTag (tag : Tag) (fuel : nat) (c : Converter) : option Converter :=
  match tag with
  | tagIgnored => Some (TagIgnored.OnHasLeftOpeningTag c)
  | tagAnchor => Some (TagAnchor.OnHasLeftOpeningTag c)
  | tagBold => Some (TagBold.OnHasLeftOpeningTag c)
  | tagItalic => Some (TagItalic.OnHasLeftOpeningTag c)
  | tagUnderline => Some (TagUnderline.OnHasLeftOpeningTag c)
  | tagStrikethrought => Some (TagStrikethrought.OnHasLeftOpeningTag c)
  | tagBreak => TagBreak.OnHasLeftOpeningTag fuel c
  | tagDiv => Some (TagDiv.OnHasLeftOpeningTag c)
  | tagHeader1 => Some (TagHeader1.OnHasLeftOpeningTag c)
  | tagHeader2 => Some (TagHeader2.OnHasLeftOpeningTag c)
  | tagHeader3 => Some (TagHeader3.OnHasLeftOpeningTag c)
  | tagHeader4 => Some (TagHeader4.OnHasLeftOpeningTag c)
  | tagHeader5 => Some (TagHeader5.OnHasLeftOpeningTag c)
  | tagHeader6 => Some (TagHeader6.OnHasLeftOpeningTag c)
  | tagListItem => Some (TagListItem.OnHasLeftOpeningTag c)
  | tagOption => Some (TagOption.OnHasLeftOpeningTag c)
  | tagOrderedList => Some (TagOrderedList.OnHasLeftOpeningTag c)
  | tagParagraph => TagParagraph.OnHasLeftOpeningTag fuel c
  | tagPre => TagPre.OnHasLeftOpeningTag fuel c
  | tagCode => Some (TagCode.OnHasLeftOpeningTag c)
  | tagSpan => Some (TagSpan.OnHasLeftOpeningTag c)
  | tagTitle => Some (TagTitle.OnHasLeftOpeningTag c)
  | tagUnorderedList => Some (TagUnorderedList.OnHasLeftOpeningTag c)
  | tagImage => Some (TagImage.OnHasLeftOpeningTag c)
  | tagSeperator => Some (TagSeperator.OnHasLeftOpeningTag c)
  | tagTable => Some (TagTable.OnHasLeftOpeningTag c)
  | tagTableRow => Some (TagTableRow.OnHasLeftOpeningTag c)
  | tagTableHeader => Some (TagTableHeader.OnHasLeftOpeningTag c)
  | tagTableData => Some (TagTableData.OnHasLeftOpeningTag c)
  | tagBlockquote => Some (TagBlockquote.OnHasLeftOpeningTag c)
  end.

(** The virtual call [tag->OnHasLeftClosingTag(this)]. *)
Definition OnHasLeftClosingTag (tag : Tag) (fuel : nat) (c : Converter) : option Converter :=
  match tag with
  | tagIgnored => Some (TagIgnored.OnHasLeftClosingTag c)
  | tagAnchor => Some (TagAnchor.OnHasLeftClosingTag c)
  | tagBold => Some (TagBold.OnHasLeftClosingTag c)
  | tagItalic => Some (TagItalic.OnHasLeftClosingTag c)
  | tagUnderline => Some (TagUnderline.OnHasLeftClosingTag c)
  | tagStrikethrought => Some (TagStrikethrought.OnHasLeftClosingTag c)
  | tagBreak => Some (TagBreak.OnHasLeftClosingTag c)
  | tagDiv => Some (TagDiv.OnHasLeftClosingTag c)
  | tagHeader1 => Some (TagHeader1.OnHasLeftClosingTag c)
  | tagHeader2 => Some (TagHeader2.OnHasLeftClosingTag c)
  | tagHeader3 => Some (TagHeader3.OnHasLeftClosingTag c)
  | tagHeader4 => Some (TagHeader4.OnHasLeftClosingTag c)
  | tagHeader5 => Some (TagHeader5.OnHasLeftClosingTag c)
  | tagHeader6 => Some (TagHeader6.OnHasLeftClosingTag c)
  | tagListItem => Some (TagListItem.OnHasLeftClosingTag c)
  | tagOption => Some (TagOption.OnHasLeftClosingTag c)
  | tagOrderedList => Some (TagOrderedList.OnHasLeftClosingTag c)
  | tagParagraph => Some (TagParagraph.OnHasLeftClosingTag c)
  | tagPre => Some (TagPre.OnHasLeftClosingTag c)
  | tagCode => Some (TagCode.OnHasLeftClosingTag c)
  | tagSpan => Some (TagSpan.OnHasLeftClosingTag c)
  | tagTitle => TagTitle.OnHasLeftClosingTag fuel c
  | tagUnorderedList => Some (TagUnorderedList.OnHasLeftClosingTag c)
  | tagImage => Some (TagImage.OnHasLeftClosingTag c)
  | tagSeperator => Some (TagSeperator.OnHasLeftClosingTag c)
  | tagTable => Some (TagTable.OnHasLeftClosingTag c)
  | tagTableRow => Some (TagTableRow.OnHasLeftClosingTag c)
  | tagTableHeader => Some (TagTableHeader.OnHasLeftClosingTag c)
  | tagTableData => Some (TagTableData.OnHasLeftClosingTag c)
  | tagBlockquote => Some (TagBlockquote.OnHasLeftClosingTag c)
  end.

(** Modelled from the spec: the member [tags_] is filled by the constructor
    [Converter(std::string* )], whose body is missing.  The entries are the
    rows of the handler table of the Tag Dispatch Table section, keyed by
    the header's tag-name constants; [div] and [option] go to the structs
    named after them; every other name (the ignored tags, unknown tags, and
    [cite] and [dfn], for which the table has no row) falls back to the
    no-op handler. *)
Definition tags_table : list (string * Tag) :=
  [ (kTagAnchor, tagAnchor); (kTagBreak, tagBreak); (kTagDiv, tagDiv);
    (kTagHeader1, tagHeader1); (kTagHeader2, tagHeader2); (kTagHeader3, tagHeader3);
    (kTagHeader4, tagHeader4); (kTagHeader5, tagHeader5); (kTagHeader6, tagHeader6);
    (kTagListItem, tagListItem); (kTagOption, tagOption);
    (kTagOrderedList, tagOrderedList); (kTagParagraph, tagParagraph);
    (kTagPre, tagPre); (kTagCode, tagCode); (kTagSpan, tagSpan); (kTagTitle, tagTitle);
    (kTagUnorderedList, tagUnorderedList); (kTagImg, tagImage);
    (kTagSeperator, tagSeperator);
    (kTagBold, tagBold); (kTagStrong, tagBold);
    (kTagItalic, tagItalic); (kTagItalic2, tagItalic);
    (kTagUnderline, tagUnderline);
    (kTagStrighthrought, tagStrikethrought); (kTagStrighthrought2, tagStrikethrought);
    (kTagBlockquote, tagBlockquote);
    (kTagTable, tagTable); (kTagTableRow, tagTableRow);
    (kTagTableHeader, tagTableHeader); (kTagTableData, tagTableData) ].

Definition tags_ (name : string) : Tag :=
  match find (fun entry => str_eq (fst entry) name) tags_table with
  | Some entry => snd entry
  | None => tagIgnored
  end.

(** ** The normalizer *)

(** The lines of a text joined with newlines, the inverse of
    [utils.Split _ ch_nl]. *)
Fixpoint join_lines (lines : list (list ascii)) : list ascii :=
  match lines with
  | [] => []
  | [line] => line
  | line :: rest => (line ++ ch_nl :: join_lines rest)%list
  end.

(** The blank-line filter of [TidyAllLines]: [amount_newlines] counts the
    blank lines kept since the last line with text; a third and any further
    blank line of a run is dropped. *)
Fixpoint collapse_blank_lines (amount_newlines : nat) (lines : list (list ascii))
  : list (list ascii) :=
  match lines with
  | [] => []
  | [] :: rest =>
      if Nat.ltb amount_newlines 2
      then [] :: collapse_blank_lines (S amount_newlines) rest
      else collapse_blank_lines amount_newlines rest
  | line :: rest => line :: collapse_blank_lines 0 rest
  end.

(** Modelled from the spec: the body of [Converter::TidyAllLines] is missing.
    Normalizer contract, (a) and (b): trim leading and trailing white space
    on every line, collapse three or more consecutive blank lines to two. *)
Definition TidyAllLines (text : list ascii) : list ascii :=
  join_lines (collapse_blank_lines 0 (map Trim (utils.Split text ch_nl))).

(** Modelled from the spec: the body of [Converter::CleanUpMarkdown] is
    missing.  Normalizer contract: tidy all lines, then (c) trim the whole
    document. *)
Definition CleanUp (text : list ascii) : list ascii := Trim (TidyAllLines text).

Definition CleanUpMarkdown (c : Converter) : Converter :=
  write_md (of_chars (CleanUp (chars (md_ c)))) c.

(** ** The scanner *)

(** Modelled from the spec: the body of [Converter::OnHasEnteredTag] is
    missing (current char: '<').  Enter InTag, remember the offset, begin a
    new TagToken; the name of the tag before it becomes the previous tag. *)
Definition OnHasEnteredTag (c : Converter) : Converter :=
  c |> set_offset_lt_ (index_ch_in_html_ c)
    |> set_is_in_tag_ true
    |> set_is_closing_tag_ false
    |> set_prev_tag_ (current_tag_ c)
    |> set_current_tag_ EmptyString.

(** The name of a finished TagToken: its text up to the first blank, in
    lower case (the dispatch table is looked up case-insensitively). *)
Definition tag_name (token : string) : string :=
  of_chars (map tolower (hd [] (utils.Split (chars token) " "%char))).

(** [dom_tags_.back()], when the ancestry stack is not empty. *)
Fixpoint top (stack : list string) : option string :=
  match stack with
  | [] => None
  | [entry] => Some entry
  | _ :: rest => top rest
  end.

(** The mark of a hidden element on the ancestry stack: a name that begins
    with it is an ignored tag for [IsIgnoredTag]. *)
Definition hidden_marker : string := "-".

(** The entry an opened tag gets on the ancestry stack: its name, marked
    when the text of the tag matches one of the hidden patterns. *)
Definition stack_entry (token : string) : string :=
  if TagContainsAttributesToHide token
  then hidden_marker ++ tag_name token
  else tag_name token.

(** A close tag corresponds to a stack entry: the entry is its name, marked
    or not. *)
Definition closes (name entry : string) : bool :=
  (str_eq entry name || str_eq entry (hidden_marker ++ name))%bool.

(** Modelled from the spec: the body of [Converter::OnHasLeftTag] is missing
    (current char: '>').  Leave InTag, look the name up in the dispatch
    table, update the ancestry stack, then invoke the open or close
    operation of the handler.  The stack: push on open-tag, pop on matching
    close-tag; a close tag that does not match the top of the stack is
    tolerated and pops nothing.  An element whose tag matches the hidden
    patterns of [TagContainsAttributesToHide] is suppressed: it is entered
    on the stack as an ignored tag, so that the text of its whole subtree is
    dropped, and its own open and close tags write nothing.  The count of
    characters written in the tag content starts again after each tag. *)
Definition OnHasLeftTag (fuel : nat) (c : Converter) : option Converter :=
  let c1 := set_is_in_tag_ false c in
  let token := current_tag_ c1 in
  let name := tag_name token in
  let c2 := set_current_tag_ name c1 in
  let tag := tags_ name in
  c3 <- (if is_closing_tag_ c2 then
           match top (dom_tags_ c2) with
           | Some entry =>
               if closes name entry then
                 let c' := set_dom_tags_ (removelast (dom_tags_ c2)) c2 in
                 if str_eq entry name then OnHasLeftClosingTag tag fuel c'
                 else Some c'
               else OnHasLeftClosingTag tag fuel c2
           | None => OnHasLeftClosingTag tag fuel c2
           end
         else if TagContainsAttributesToHide token
         then Some (set_dom_tags_ (dom_tags_ c2 ++ [stack_entry token])%list c2)
         else OnHasLeftOpeningTag tag fuel
                (set_dom_tags_ (dom_tags_ c2 ++ [stack_entry token])%list c2)) ;;
  Some (set_char_index_in_tag_content 0 c3).

(** One character more in the text of the tag being scanned. *)
Definition push_tag_char (ch : ascii) (c : Converter) : Converter :=
  set_current_tag_ (current_tag_ c ++ String ch EmptyString) c.

(** Modelled from the spec: the body of [Converter::ParseCharInTag] is
    missing.  Inside an attribute value a quote ends the value and every
    other character belongs to it.  Outside a value: '/' sets the closing
    flag when it follows '<' directly; '>' leaves the tag; a quote starts a
    value; '=' begins a value.  The text of the tag is accumulated as it is
    written (the hidden patterns of [TagContainsAttributesToHide] are
    matched against it, quotes, '=' and capitals included), white space
    outside a value as a blank; '/' outside a value is no part of it. *)
Definition ParseCharInTag (fuel : nat) (ch : ascii) (c : Converter) : option Converter :=
  if is_in_attribute_value_ c then
    if is_quote ch then Some (c |> set_is_in_attribute_value_ false |> push_tag_char ch)
    else Some (c |> set_current_attribute_value_
                      (current_attribute_value_ c ++ String ch EmptyString)
                 |> push_tag_char ch)
  else if ch_eq ch "/"%char
  then Some (when (ch_eq (prev_ch_in_html_ c) "<"%char) (set_is_closing_tag_ true) c)
  else if ch_eq ch ">"%char then OnHasLeftTag fuel c
  else if is_quote ch then Some (c |> set_is_in_attribute_value_ true |> push_tag_char ch)
  else if ch_eq ch "="%char
  then Some (c |> set_current_attribute_value_ EmptyString |> push_tag_char ch)
  else Some (push_tag_char (if isspace ch then " "%char else ch) c).

(** Modelled from the spec: the body of [Converter::ParseCharInTagContent]
    is missing (Text state).  A character below an ignored ancestor is
    dropped; inside pre or code it is written verbatim; elsewhere a blank
    that follows a blank is dropped (collapsing of consecutive blanks) and
    any other character is written. *)
Definition write_content_char (ch : ascii) (c : Converter) : Converter :=
  c |> AppendToMd_ch ch
    |> set_char_index_in_tag_content (wrap_uint16 (char_index_in_tag_content c + 1)).

Definition ParseCharInTagContent (ch : ascii) (c : Converter) : Converter :=
  if IsInIgnoredTag c then c
  else if (is_in_pre_ c || is_in_code_ c)%bool then write_content_char ch c
  else if (is_blank ch && is_blank (prev_ch_in_md_ c))%bool then c
  else write_content_char ch c.

(** One turn of the scan loop on the character under the cursor: '<'
    outside an attribute value enters a tag; otherwise the character goes to
    the tag parser or to the content parser.  The cursor, a [uint16_t], then
    moves on. *)
Definition scan_char (fuel : nat) (ch : ascii) (c : Converter) : option Converter :=
  c1 <- (if (ch_eq ch "<"%char && negb (is_in_attribute_value_ c))%bool
         then Some (OnHasEnteredTag c)
         else if is_in_tag_ c then ParseCharInTag fuel ch c
         else Some (ParseCharInTagContent ch c)) ;;
  Some (c1 |> set_prev_ch_in_html_ ch
           |> set_index_ch_in_html_ (wrap_uint16 (index_ch_in_html_ c1 + 1))).

Fixpoint scan (fuel : nat) (input : list ascii) (c : Converter) : option Converter :=
  match input with
  | [] => Some c
  | ch :: rest => c1 <- scan_char fuel ch c ;; scan fuel rest c1
  end.

(** Modelled from the spec: the body of [Converter::Convert2Md] is missing.
    The HTML is consumed once, character by character, then the normalizer
    rewrites the Output Buffer; the result is [md_]. *)
Definition Convert2Md (fuel : nat) (c : Converter) : option Converter :=
  c1 <- scan fuel (chars (html_ c)) c ;;
  Some (CleanUpMarkdown c1).


(** The static wrapper [Convert], inline in the header. *)
Definition Convert (fuel : nat) (html : string) : option string :=
  c <- Convert2Md fuel (Converter_init html) ;;
  Some (md_ c).

(** ** The tags of a document

    The tags as the scanner delimits them, without the handlers: the part of
    the scan loop that decides where a tag starts and ends, which name it
    has and whether it is a closing tag.  Every [<...>] is a tag, a close
    tag when '/' follows '<' directly and an opened tag otherwise: elements
    without an end tag, self-closing tags and comments are opened tags like
    any other, and stay on the ancestry stack (the header keeps [meta] out
    of the ignored tags for that reason: to tolerate if closing is
    omitted). *)

Record Lexer : Type := mkLexer {
  lex_in_tag : bool;
  lex_in_value : bool;
  lex_closing : bool;
  lex_token : string;
  lex_prev : ascii
}.

(** A tag of the document: an opened tag with the entry it gets on the
    ancestry stack, or a close tag with its name. *)
Inductive TagEvent : Type :=
| OpenTag (entry : string)
| CloseTag (name : string).

Definition lex_step (ch : ascii) (s : Lexer) : Lexer * option TagEvent :=
  if (ch_eq ch "<"%char && negb (lex_in_value s))%bool
  then (mkLexer true (lex_in_value s) false EmptyString ch, None)
  else if lex_in_tag s then
    if lex_in_value s then
      (mkLexer true (negb (is_quote ch)) (lex_closing s)
         (lex_token s ++ String ch EmptyString) ch, None)
    else if ch_eq ch "/"%char
    then (mkLexer true false
            (if ch_eq (lex_prev s) "<"%char then true else lex_closing s)
            (lex_token s) ch, None)
    else if ch_eq ch ">"%char
    then (mkLexer false false (lex_closing s) (tag_name (lex_token s)) ch,
          Some (if lex_closing s
                then CloseTag (tag_name (lex_token s))
                else OpenTag (stack_entry (lex_token s))))
    else if is_quote ch
    then (mkLexer true true (lex_closing s) (lex_token s ++ String ch EmptyString) ch, None)
    else if ch_eq ch "="%char
    then (mkLexer true false (lex_closing s) (lex_token s ++ String ch EmptyString) ch, None)
    else (mkLexer true false (lex_closing s)
            (lex_token s ++ String (if isspace ch then " "%char else ch) EmptyString)
            ch, None)
  else (mkLexer false (lex_in_value s) (lex_closing s) (lex_token s) ch, None).

Fixpoint tag_events_from (input : list ascii) (s : Lexer) : list TagEvent :=
  match input with
  | [] => []
  | ch :: rest =>
      match lex_step ch s with
      | (s1, Some ev) => ev :: tag_events_from rest s1
      | (s1, None) => tag_events_from rest s1
      end
  end.

Definition Lexer_init : Lexer := mkLexer false false false EmptyString "x"%char.

Definition tag_events (html : string) : list TagEvent :=
  tag_events_from (chars html) Lexer_init.








(** ** Documents written piece by piece *)

(** A piece of a document: text, or a tag that is just a name. *)
Inductive Piece : Type :=
| Text (text : string)
| Opening (name : string)
| Closing (name : string).

Definition markup (piece : Piece) : string :=
  match piece with
  | Text text => text
  | Opening name => "<" ++ name ++ ">"
  | Closing name => "</" ++ name ++ ">"
  end.

Definition document (pieces : list Piece) : string :=
  fold_right (fun piece rest => markup piece ++ rest) EmptyString pieces.

(** A character of a plain tag name: no delimiter of the scanner, no white
    space, no capital. *)
Definition name_char (ch : ascii) : bool :=
  (negb (ch_eq ch "<"%char) && negb (ch_eq ch ">"%char) && negb (ch_eq ch "/"%char)
   && negb (ch_eq ch "="%char) && negb (is_quote ch) && negb (isspace ch)
   && ch_eq (tolower ch) ch)%bool.

Definition plain (piece : Piece) : bool :=
  match piece with
  | Text text => forallb (fun ch => negb (ch_eq ch "<"%char)) (chars text)
  | Opening name | Closing name => forallb name_char (chars name)
  end.

(** The tags of the pieces, as they are written. *)
Definition tags (pieces : list Piece) : list TagEvent :=
  flat_map (fun piece =>
              match piece with
              | Text _ => []
              | Opening name => [OpenTag (stack_entry name)]
              | Closing name => [CloseTag name]
              end) pieces.

(** ** Ancestors, as the content filter is described *)

Definition is_pre_or_title (tag : string) : bool :=
  ((kTagPre =? tag)%string || (kTagTitle =? tag)%string)%bool.

Definition has_ignored_ancestor (c : Converter) : bool :=
  existsb IsIgnoredTag (dom_tags_ c).

Definition has_pre_or_title_ancestor (c : Converter) : bool :=
  existsb is_pre_or_title (dom_tags_ c).

(** ** Lines and runs of blank lines *)

(** A line of white space only. *)
Definition blank_line (line : list ascii) : bool := forallb isspace line.

(** A text laid out as blank lines, then lines with text, each followed by
    its own run of blank lines. *)
Fixpoint layout (blocks : list (list ascii * list (list ascii))) : list (list ascii) :=
  match blocks with
  | [] => []
  | (line, blanks) :: rest => (line :: blanks ++ layout rest)%list
  end.

(** Three or more blank lines become two, fewer are left as they are. *)
Definition blank_lines_kept (n : nat) : nat :=
  if Nat.leb 3 n then 2%nat else n.

Definition tidy_block (block : list ascii * list (list ascii))
  : list ascii * list (list ascii) :=
  (Trim (fst block), repeat [] (blank_lines_kept (List.length (snd block)))).

(** ** Documents used below *)

Definition attr (name value : string) : string :=
  " " ++ name ++ "=" ++ dq ++ value ++ dq.

Definition html_empty_anchor : string :=
  "<a" ++ attr "href" "x" ++ "></a>".

Definition html_ordered_list : string :=
  "<ol><li>one</li><li>two</li></ol>".

Definition html_two_ordered_lists : string :=
  "<ol><li>one</li><li>two</li></ol><ol><li>three</li></ol>".

Definition html_right_aligned_table : string :=
  "<table><tr><th" ++ attr "align" "right" ++ ">A</th><th"
    ++ attr "align" "right" ++ ">B</th></tr></table>".

Definition html_rust_block : string :=
  "<pre><code" ++ attr "class" "language-rust" ++ ">fn x(){}</code></pre>".

Definition html_nul_class_block : string :=
  "<pre><code" ++ attr "class" ("language-ru" ++ String NUL "st") ++ ">".

Definition html_stray_blockquote_break : string :=
  "</blockquote><br>".

Definition html_script_pre : string :=
  "<script><pre>".

(** ** Notions the statements below use *)

(** What the scanner owns of a converter: the cursor, the raw text, the tag
    being scanned and the ancestry stack. *)
Definition scanner_state (c : Converter) :=
  (index_ch_in_html_ c, dom_tags_ c, is_in_tag_ c, is_closing_tag_ c,
   is_in_attribute_value_ c, prev_ch_in_html_ c, html_ c, offset_lt_ c, current_tag_ c).


(** A string without NUL: it is its own C string. *)
Definition nul_free (s : string) : bool :=
  forallb (fun ch => negb (Ascii.eqb ch NUL)) (chars s).

(** [n] copies of a string, one after the other. *)
Fixpoint copies (n : nat) (s : string) : string :=
  match n with
  | O => EmptyString
  | S n' => s ++ copies n' s
  end.

(** A text that [Trim] leaves as it is. *)
Definition trimmed (l : list ascii) : Prop :=
  drop_while isspace l = l /\ drop_while_end isspace l = l.

Definition no_newline (line : list ascii) : Prop := ~ In ch_nl line.

Definition nilb (line : list ascii) : bool :=
  match line with
  | [] => true
  | _ :: _ => false
  end.

(** The lines of a text without the empty ones at its start and end. *)
Definition strip_blank_lines (lines : list (list ascii)) : list (list ascii) :=
  drop_while nilb (drop_while_end nilb lines).

(** The lines of a tidied text. *)
Definition tidy_lines (text : list ascii) : list (list ascii) :=
  collapse_blank_lines 0 (map Trim (utils.Split text ch_nl)).

Definition all_blank (lines : list (list ascii)) : Prop :=
  Forall (fun line => blank_line line = true) lines.

(** A line with text, followed by blank lines. *)
Definition text_block (block : list ascii * list (list ascii)) : Prop :=
  blank_line (fst block) = false /\ all_blank (snd block).

Definition trim_block (block : list ascii * list (list ascii))
  : list ascii * list (list ascii) :=
  (Trim (fst block), repeat [] (List.length (snd block))).

(** The separator row with three dashes per cell. *)
Definition claimed_separator : string := "| ---: | ---: |".

(** A class attribute with a NUL in its language token. *)
Definition nul_class : string := "language-ru" ++ String NUL "st".

(** The title of a link as the anchor handler writes it. *)
Definition link_title (title : string) : string :=
  if empty title then EmptyString else " " ++ dq ++ c_str title ++ dq.

(** The cell of the separator row for an align attribute. *)
Definition separator_cell (align : string) : string :=
  if str_eq align "left" then "| :- "
  else if str_eq align "center" then "| :-: "
  else if str_eq align "right" then "| -: "
  else "| - ".

(** ** Proof automation *)

Ltac split_ifs :=
  repeat match goal with
         | |- context [if ?b then _ else _] => destruct b
         end.

Ltac frame_option H :=
  repeat (cbn [bind] in H;
          match type of H with
          | context [if ?b then _ else _] => destruct b
          | context [utils.Repeat ?f ?s ?a] => destruct (utils.Repeat f s a)
          end);
  cbn [bind] in H; try discriminate H;
  injection H as <-.

(** Brings every [index_blockquote] of a state built from [c] back to [c]. *)
Ltac same_depth c :=
  repeat match goal with
         | |- context [index_blockquote ?x] =>
             lazymatch x with
             | c => fail
             | _ => progress change (index_blockquote x) with (index_blockquote c)
             end
         end.

(** * Properties

    ** Strings *)

Lemma append_assoc (a b c : string) : (a ++ b) ++ c = a ++ (b ++ c).
Proof. induction a as [|ch a IH]; simpl; [reflexivity | now rewrite IH]. Qed.

Lemma append_empty_r (a : string) : a ++ EmptyString = a.
Proof. induction a as [|ch a IH]; simpl; [reflexivity | now rewrite IH]. Qed.

Lemma chars_app (a b : string) : chars (a ++ b) = (chars a ++ chars b)%list.
Proof. induction a as [|ch a IH]; simpl; [reflexivity | now rewrite IH]. Qed.

Lemma of_chars_chars (s : string) : of_chars (chars s) = s.
Proof. apply string_of_list_ascii_of_string. Qed.

Lemma chars_of_chars (l : list ascii) : chars (of_chars l) = l.
Proof. apply list_ascii_of_string_of_list_ascii. Qed.


Lemma c_str_nul_free (s : string) : nul_free s = true -> c_str s = s.
Proof.
  unfold nul_free. induction s as [|ch s IH]; simpl; [reflexivity|].
  intros H. apply andb_true_iff in H. destruct H as [Hch Hs].
  destruct (Ascii.eqb ch NUL); [discriminate|]. now rewrite IH.
Qed.

Lemma nul_free_app (a b : string) :
  nul_free (a ++ b) = (nul_free a && nul_free b)%bool.
Proof. unfold nul_free. rewrite chars_app. apply forallb_app. Qed.

Lemma nul_free_uint (d : Decimal.uint) : nul_free (NilEmpty.string_of_uint d) = true.
Proof. induction d; simpl; auto. Qed.

Lemma nul_free_to_string (z : Z) : nul_free (to_string z) = true.
Proof.
  unfold to_string, NilZero.string_of_int, NilZero.string_of_uint.
  destruct (Z.to_int z) as [d|d].
  - destruct d; try reflexivity; apply (nul_free_uint (_ d)).
  - change (String "-" ?s) with ("-" ++ s). rewrite nul_free_app.
    destruct d; try reflexivity; apply (nul_free_uint (_ d)).
Qed.

(** ** The output buffer *)

Lemma md_AppendToMd (s : string) (c : Converter) : md_ (AppendToMd s c) = md_ c ++ s.
Proof. reflexivity. Qed.

Lemma md_AppendToMd_ch (ch : ascii) (c : Converter) :
  md_ (AppendToMd_ch ch c) = md_ c ++ String ch EmptyString.
Proof. reflexivity. Qed.

Lemma md_AppendToMd_string (s : string) (c : Converter) :
  md_ (AppendToMd_string s c) = md_ c ++ c_str s.
Proof. reflexivity. Qed.

Lemma firstn_all_but_last {A : Type} (l : list A) (x : A) :
  firstn (List.length (l ++ [x]) - 1) (l ++ [x]) = l.
Proof.
  rewrite length_app. simpl. 
  replace (List.length l + 1 - 1)%nat with (List.length l + 0)%nat by lia.
  rewrite firstn_app_2. simpl. apply app_nil_r.
Qed.

Lemma md_ShortenMarkdown_last (c : Converter) (m : string) (ch : ascii) :
  md_ c = m ++ String ch EmptyString -> md_ (ShortenMarkdown 1 c) = m.
Proof.
  intros H. unfold ShortenMarkdown. change (md_ (write_md ?m' c)) with m'.
  rewrite H, chars_app. simpl chars.
  change (Z.to_nat 1) with 1%nat. rewrite firstn_all_but_last. apply of_chars_chars.
Qed.

Lemma last_app_one {A : Type} (l : list A) (x d : A) : last (l ++ [x]) d = x.
Proof. apply last_last. Qed.

Lemma last_ch_app_one (s : string) (ch : ascii) : last_ch (s ++ String ch EmptyString) = ch.
Proof. unfold last_ch. rewrite chars_app. apply last_last. Qed.

Lemma empty_false (s : string) : s <> EmptyString -> empty s = false.
Proof. destruct s; [congruence | reflexivity]. Qed.

Lemma ch_eq_refl (ch : ascii) : ch_eq ch ch = true.
Proof. apply Ascii.eqb_refl. Qed.


(** ** The loop of [utils::Repeat] and the stray closing blockquote *)

Lemma Repeat_loop_never_leaves (fuel : nat) (s : string) (amount : Z) :
  65536 <= amount ->
  forall (i : Z) (out : string), 0 <= i < 65536 ->
  utils.Repeat_loop fuel s amount i out = None.
Proof.
  intros Hamount. induction fuel as [|fuel IH]; intros i out Hi; [reflexivity|].
  simpl. destruct (Z.ltb_spec i amount) as [_|Hge]; [|lia].
  apply IH. unfold wrap_uint16. apply Z.mod_pos_bound. lia.
Qed.

Lemma Repeat_never_returns (fuel : nat) (s : string) (amount : Z) :
  65536 <= amount -> utils.Repeat fuel s amount = None.
Proof.
  intros H. unfold utils.Repeat.
  destruct (Z.eqb_spec amount 0); [lia|].
  destruct (Z.eqb_spec amount 1); [lia|].
  apply Repeat_loop_never_leaves; lia.
Qed.



Lemma scan_app (fuel : nat) (a b : list ascii) (c : Converter) :
  scan fuel (a ++ b)%list c = (c1 <- scan fuel a c ;; scan fuel b c1).
Proof.
  revert c. induction a as [|ch a IH]; intros c; simpl; [reflexivity|].
  destruct (scan_char fuel ch c); simpl; [apply IH | reflexivity].
Qed.


Lemma to_size_t_negative (z : Z) :
  -32768 <= z < 0 -> 65536 <= to_size_t z.
Proof.
  intros H. unfold to_size_t.
  rewrite <- (Z.mod_unique z 18446744073709551616 (-1) (z + 18446744073709551616)); lia.
Qed.

Lemma TagBreak_never_returns (fuel : nat) (c : Converter) :
  -32768 <= index_blockquote c < 0 ->
  TagBreak.OnHasLeftOpeningTag fuel c = None.
Proof.
  intros H. unfold TagBreak.OnHasLeftOpeningTag.
  match goal with |- (_ <- utils.Repeat _ _ (to_size_t (index_blockquote ?c1)) ;; _) = _ =>
    assert (E : index_blockquote c1 = index_blockquote c)
  end.
  { unfold when. destruct (is_in_table_ c).
    - destruct (ch_eq (prev_ch_in_md_ c) " "%char); reflexivity.
    - destruct (md_len_ c >? 0); reflexivity. }
  rewrite E, Repeat_never_returns by (apply to_size_t_negative; exact H).
  reflexivity.
Qed.

Lemma scan_char_break_never_returns (fuel : nat) (c : Converter) :
  is_in_tag_ c = true -> is_in_attribute_value_ c = false ->
  is_closing_tag_ c = false -> tag_name (current_tag_ c) = kTagBreak ->
  TagContainsAttributesToHide (current_tag_ c) = false ->
  -32768 <= index_blockquote c < 0 ->
  scan_char fuel ">"%char c = None.
Proof.
  intros Htag Hval Hclose Hname Hshown Hdepth.
  unfold scan_char. rewrite Hval, Htag. simpl.
  unfold ParseCharInTag. rewrite Hval. simpl.
  unfold OnHasLeftTag. cbv zeta.
  change (is_closing_tag_ (set_current_tag_ ?n (set_is_in_tag_ false c)))
    with (is_closing_tag_ c).
  change (current_tag_ (set_is_in_tag_ false c)) with (current_tag_ c).
  rewrite Hclose, Hshown, Hname. change (tags_ kTagBreak) with tagBreak.
  cbn [OnHasLeftOpeningTag].
  rewrite TagBreak_never_returns; [reflexivity | exact Hdepth].
Qed.

(** C9 (the claim: a conversion terminates for every input, bounded by the
    input length).  The code does not: on the document [</blockquote><br>]
    the closing blockquote lowers the depth counter to -1, the break handler
    passes it to [Repeat] as a [size_t], and the loop of [Repeat], whose
    [uint16_t] counter wraps below that amount, has not left after any number
    of turns. *)
Theorem Convert_stray_blockquote_break_never_returns :
  forall fuel : nat, Convert fuel html_stray_blockquote_break = None.
Proof.
  intros fuel. unfold Convert, Convert2Md.
  change (chars (html_ (Converter_init html_stray_blockquote_break)))
    with (chars "</blockquote><br" ++ [">"%char])%list.
  rewrite scan_app.
  eassert (H : scan fuel (chars "</blockquote><br")
                 (Converter_init html_stray_blockquote_break) = Some _).
  { vm_compute. reflexivity. }
  rewrite H. clear H. 
  cbn [bind scan].
  rewrite scan_char_break_never_returns; [reflexivity | try reflexivity ..].
  cbn. lia.
Qed.
(** ** Anchors and ordered lists *)

(** C5: an anchor whose body collapses to nothing, so that the closing tag
    finds the output buffer ending in the emitted '[', is discarded: the
    close handler takes the '[' back and writes no link markup, and
    converting an anchor with an empty body gives the empty text. *)
Theorem empty_anchor_is_discarded (c : Converter) (m : string) :
  IsInIgnoredTag c = false ->
  md_ c = m ++ "[" ->
  prev_ch_in_md_ c = "["%char ->
  md_ (TagAnchor.OnHasLeftClosingTag c) = m
  /\ (forall fuel, Convert fuel html_empty_anchor = Some EmptyString).
Proof.
  intros Hign Hmd Hprev. split.
  - unfold TagAnchor.OnHasLeftClosingTag. rewrite Hign.
    unfold when. rewrite Hprev. cbn [ch_eq Ascii.eqb Bool.eqb].
    rewrite Hprev. cbn [ch_eq Ascii.eqb Bool.eqb].
    apply md_ShortenMarkdown_last with (ch := "["%char). exact Hmd.
  - intros fuel. vm_compute. reflexivity.
Qed.

Lemma empty_anchor_is_discarded_witness :
  md_ (TagAnchor.OnHasLeftClosingTag
         (TagAnchor.OnHasLeftOpeningTag (Converter_init html_empty_anchor))) = " "
  /\ (forall fuel, Convert fuel html_empty_anchor = Some EmptyString).
Proof.
  apply (empty_anchor_is_discarded
           (TagAnchor.OnHasLeftOpeningTag (Converter_init html_empty_anchor)) " ");
    reflexivity.
Defined.

Lemma wrap_int_small (z : Z) : -2147483648 <= z < 2147483648 -> wrap_int z = z.
Proof. intros H. unfold wrap_int. rewrite Z.mod_small; lia. Qed.

(** C6: outside a table, opening an ordered list resets the item counter
    to 0, and every list item opened in an ordered list raises the counter
    by one and writes it before a dot and a blank; so the items of a list
    are numbered 1., 2., ... and a second list starts at 1. again. *)
Theorem ordered_list_items_are_numbered (c item : Converter) :
  is_in_table_ c = false ->
  is_in_table_ item = false ->
  is_in_ordered_list_ item = true ->
  0 <= index_li item < 2147483647 ->
  (is_in_ordered_list_ (TagOrderedList.OnHasLeftOpeningTag c) = true
   /\ index_li (TagOrderedList.OnHasLeftOpeningTag c) = 0)
  /\ (index_li (TagListItem.OnHasLeftOpeningTag item) = index_li item + 1
      /\ md_ (TagListItem.OnHasLeftOpeningTag item)
         = md_ item ++ to_string (index_li item + 1) ++ ". ")
  /\ (forall fuel, Convert fuel html_ordered_list = Some ("1. one" ++ nl ++ "2. two"))
  /\ (forall fuel, Convert fuel html_two_ordered_lists
                   = Some ("1. one" ++ nl ++ "2. two" ++ nl ++ nl ++ nl ++ "1. three")).
Proof.
  intros Htable Hitable Hordered Hrange.
  split; [split | split; [split | split]].
  - unfold TagOrderedList.OnHasLeftOpeningTag. rewrite Htable. reflexivity.
  - unfold TagOrderedList.OnHasLeftOpeningTag. rewrite Htable. reflexivity.
  - unfold TagListItem.OnHasLeftOpeningTag. rewrite Hitable, Hordered.
    cbn [negb]. change (index_li (AppendToMd_string ?s (set_index_li ?v ?c0))) with v.
    apply wrap_int_small. lia.
  - unfold TagListItem.OnHasLeftOpeningTag. rewrite Hitable, Hordered.
    cbn [negb]. rewrite md_AppendToMd_string.
    change (index_li (set_index_li ?v ?c0)) with v.
    change (md_ (set_index_li ?v ?c0)) with (md_ c0).
    rewrite wrap_int_small by lia.
    rewrite c_str_nul_free; [reflexivity|].
    rewrite nul_free_app, nul_free_to_string. reflexivity.
  - intros fuel. vm_compute. reflexivity.
  - intros fuel. vm_compute. reflexivity.
Qed.

Lemma ordered_list_items_are_numbered_witness :
  let c := Converter_init html_ordered_list in
  let item := TagOrderedList.OnHasLeftOpeningTag c in
  (is_in_ordered_list_ item = true /\ index_li item = 0)
  /\ (index_li (TagListItem.OnHasLeftOpeningTag item) = index_li item + 1
      /\ md_ (TagListItem.OnHasLeftOpeningTag item)
         = md_ item ++ to_string (index_li item + 1) ++ ". ")
  /\ (forall fuel, Convert fuel html_ordered_list = Some ("1. one" ++ nl ++ "2. two"))
  /\ (forall fuel, Convert fuel html_two_ordered_lists
                   = Some ("1. one" ++ nl ++ "2. two" ++ nl ++ nl ++ nl ++ "1. three")).
Proof.
  apply (ordered_list_items_are_numbered
           (Converter_init html_ordered_list)
           (TagOrderedList.OnHasLeftOpeningTag (Converter_init html_ordered_list)));
    [reflexivity | reflexivity | reflexivity | simpl; lia].
Defined.


(** ** Tables and code blocks *)

(** C7, as the claim states it, fails: the separator row beneath the header
    row of two right-aligned cells has one dash per cell, not three. *)
Lemma right_aligned_separator_has_single_dashes :
  Convert 0 html_right_aligned_table
    = Some ("| A| B|" ++ nl ++ "| -: | -: |")
  /\ Convert 0 html_right_aligned_table
    <> Some ("| A| B|" ++ nl ++ claimed_separator)
  /\ contains claimed_separator ("| A| B|" ++ nl ++ "| -: | -: |") = false.
Proof. split; [|split]; vm_compute; [reflexivity | discriminate | reflexivity]. Qed.

(** C7, amended: a header cell with align=right adds the cell [| -: ] (one
    dash) to the separator row; closing the header row writes the closing
    pipe, a newline and the separator row, so the separator [| -: | -: |]
    stands immediately beneath a header row of two right-aligned cells. *)
Theorem right_aligned_header_separator (cell row : Converter) :
  ExtractAttributeFromTagLeftOf kAttrinuteAlign cell = "right" ->
  last_ch (md_ row) <> "|"%char ->
  tableLine row <> EmptyString ->
  (tableLine (TagTableHeader.OnHasLeftOpeningTag cell) = tableLine cell ++ "| -: "
   /\ md_ (TagTableHeader.OnHasLeftOpeningTag cell) = md_ cell ++ "| ")
  /\ (md_ (TagTableRow.OnHasLeftClosingTag row)
        = md_ row ++ "|" ++ nl ++ c_str (tableLine row ++ "|" ++ nl)
      /\ tableLine (TagTableRow.OnHasLeftClosingTag row) = EmptyString)
  /\ (forall fuel, Convert fuel html_right_aligned_table
                   = Some ("| A| B|" ++ nl ++ "| -: | -: |")).
Proof.
  intros Halign Hlast Hline.
  split; [split | split; [|]].
  - unfold TagTableHeader.OnHasLeftOpeningTag. rewrite Halign. reflexivity.
  - reflexivity.
  - unfold TagTableRow.OnHasLeftClosingTag.
    change (prev_ch_in_md_ (UpdatePrevChFromMd row)) with (last_ch (md_ row)).
    assert (E : ch_eq (last_ch (md_ row)) "|"%char = false).
    { apply Ascii.eqb_neq. exact Hlast. }
    rewrite E.
    change (tableLine (AppendToMd_ch "|"%char (UpdatePrevChFromMd row)))
      with (tableLine row).
    rewrite (empty_false _ Hline). cbn [negb].
    change (prev_ch_in_md_ (AppendToMd_ch "|"%char (UpdatePrevChFromMd row)))
      with (last_ch (md_ row ++ "|")).
    rewrite last_ch_app_one. cbn [ch_ne Ascii.eqb Bool.eqb negb when ch_nl].
    split; [|reflexivity].
    destruct row; cbn. rewrite !append_assoc. reflexivity.
  - intros fuel. vm_compute. reflexivity.
Qed.

Lemma right_aligned_header_separator_witness :
  let cell := set_offset_lt_ 11 (set_index_ch_in_html_ 28 (Converter_init html_right_aligned_table)) in
  let row := set_tableLine "| -: " (AppendToMd "| A" cell) in
  (tableLine (TagTableHeader.OnHasLeftOpeningTag cell) = tableLine cell ++ "| -: "
   /\ md_ (TagTableHeader.OnHasLeftOpeningTag cell) = md_ cell ++ "| ")
  /\ (md_ (TagTableRow.OnHasLeftClosingTag row)
        = md_ row ++ "|" ++ nl ++ c_str (tableLine row ++ "|" ++ nl)
      /\ tableLine (TagTableRow.OnHasLeftClosingTag row) = EmptyString)
  /\ (forall fuel, Convert fuel html_right_aligned_table
                   = Some ("| A| B|" ++ nl ++ "| -: | -: |")).
Proof.
  apply (right_aligned_header_separator
           (set_offset_lt_ 11 (set_index_ch_in_html_ 28 (Converter_init html_right_aligned_table)))
           (set_tableLine "| -: "
              (AppendToMd "| A"
                 (set_offset_lt_ 11 (set_index_ch_in_html_ 28 (Converter_init html_right_aligned_table))))));
    [reflexivity | vm_compute; discriminate | vm_compute; discriminate].
Defined.

(** C8: inside code, a character of the content that no ignored ancestor
    hides is written as it is, blanks included; converting the pre/code block
    with class language-rust gives the opening fence with the token rust and
    the code unchanged. *)
Theorem rust_code_block_is_fenced_verbatim (c : Converter) (ch : ascii) :
  IsInIgnoredTag c = false ->
  is_in_code_ c = true ->
  md_ (ParseCharInTagContent ch c) = md_ c ++ String ch EmptyString
  /\ (forall fuel, Convert fuel html_rust_block
                   = Some ("```rust" ++ nl ++ "fn x(){}```")).
Proof.
  intros Hign Hcode. split.
  - unfold ParseCharInTagContent. rewrite Hign, Hcode, orb_true_r. reflexivity.
  - intros fuel. vm_compute. reflexivity.
Qed.

Lemma rust_code_block_is_fenced_verbatim_witness :
  md_ (ParseCharInTagContent " "%char
         (set_is_in_code_ true (AppendToMd "fn " (Converter_init html_rust_block))))
    = "fn  "
  /\ (forall fuel, Convert fuel html_rust_block
                   = Some ("```rust" ++ nl ++ "fn x(){}```")).
Proof.
  apply (rust_code_block_is_fenced_verbatim
           (set_is_in_code_ true (AppendToMd "fn " (Converter_init html_rust_block)))
           " "%char); reflexivity.
Defined.

(** C10, as the claim states it, fails when the class value holds a NUL:
    the token goes through [AppendToMd(const std::string&)], which hands
    [c_str()] on, so only the characters before the NUL reach the fence. *)
Lemma language_token_stops_at_nul :
  (exists c, scan 0 (chars ("<pre><code" ++ attr "class" nul_class))
               (Converter_init html_nul_class_block) = Some c
             /\ is_in_pre_ c = true /\ is_in_list_ c = false /\ index_blockquote c = 0
             /\ ExtractAttributeFromTagLeftOf kAttributeClass c = nul_class)
  /\ erase_front 9 nul_class = "ru" ++ String NUL "st"
  /\ (exists c, scan 0 (chars html_nul_class_block)
                  (Converter_init html_nul_class_block) = Some c
                /\ md_ c = nl ++ nl ++ "```" ++ "ru" ++ nl)
  /\ nl ++ nl ++ "```" ++ "ru" ++ nl <> nl ++ nl ++ "```" ++ erase_front 9 nul_class ++ nl.
Proof.
  split; [|split; [|split]].
  - eexists. split; [vm_compute; reflexivity|]. repeat split.
  - reflexivity.
  - eexists. split; [vm_compute; reflexivity|]. reflexivity.
  - vm_compute. discriminate.
Qed.

Lemma erase_front_short (n : nat) (s : string) :
  (String.length s <= n)%nat -> erase_front n s = EmptyString.
Proof.
  revert s. induction n as [|n IH]; intros s H.
  - destruct s; [reflexivity | simpl in H; lia].
  - destruct s; [reflexivity|]. simpl in *. apply IH. lia.
Qed.

Lemma nul_free_erase_front (n : nat) (s : string) :
  nul_free s = true -> nul_free (erase_front n s) = true.
Proof.
  revert s. induction n as [|n IH]; intros s H; [exact H|].
  destruct s as [|ch s]; [reflexivity|]. simpl.
  apply IH. unfold nul_free in *. simpl in H. apply andb_true_iff in H. apply H.
Qed.

(** C10, amended: for a code element opened inside pre, outside lists and
    blockquotes, with a non-empty class, the token on the fence is the class
    value without its first nine characters, whatever they are, read as a C
    string (cut at the first NUL); without a NUL it is exactly the class
    value less nine characters, and a class of at most nine characters gives
    the empty token. *)
Theorem code_fence_language_token (c : Converter) (cls : string) :
  is_in_pre_ c = true ->
  is_in_list_ c = false ->
  index_blockquote c = 0 ->
  ExtractAttributeFromTagLeftOf kAttributeClass c = cls ->
  cls <> EmptyString ->
  md_ (TagCode.OnHasLeftOpeningTag c)
    = md_ (when (ch_eq (prev_ch_in_md_ c) " "%char) (ShortenMarkdown 1) c)
        ++ c_str (erase_front 9 cls) ++ nl
  /\ (nul_free cls = true -> c_str (erase_front 9 cls) = erase_front 9 cls)
  /\ ((String.length cls <= 9)%nat -> erase_front 9 cls = EmptyString).
Proof.
  intros Hpre Hlist Hquote Hcls Hne.
  split; [|split].
  - unfold TagCode.OnHasLeftOpeningTag.
    change (is_in_pre_ (set_is_in_code_ true c)) with (is_in_pre_ c). rewrite Hpre.
    change (prev_ch_in_md_ (set_is_in_code_ true c)) with (prev_ch_in_md_ c).
    unfold when.
    destruct (ch_eq (prev_ch_in_md_ c) " "%char).
    + change (is_in_list_ (ShortenMarkdown 1 (set_is_in_code_ true c))) with (is_in_list_ c).
      change (index_blockquote (ShortenMarkdown 1 (set_is_in_code_ true c)))
        with (index_blockquote c).
      change (ExtractAttributeFromTagLeftOf kAttributeClass
                (ShortenMarkdown 1 (set_is_in_code_ true c)))
        with (ExtractAttributeFromTagLeftOf kAttributeClass c).
      rewrite Hlist, Hquote, Hcls, (empty_false _ Hne). cbn [orb negb Z.eqb].
      rewrite md_AppendToMd_ch, md_AppendToMd_string.
      rewrite append_assoc. reflexivity.
    + change (is_in_list_ (set_is_in_code_ true c)) with (is_in_list_ c).
      change (index_blockquote (set_is_in_code_ true c)) with (index_blockquote c).
      change (ExtractAttributeFromTagLeftOf kAttributeClass (set_is_in_code_ true c))
        with (ExtractAttributeFromTagLeftOf kAttributeClass c).
      rewrite Hlist, Hquote, Hcls, (empty_false _ Hne). cbn [orb negb Z.eqb].
      rewrite md_AppendToMd_ch, md_AppendToMd_string.
      rewrite append_assoc. reflexivity.
  - intros Hnul. apply c_str_nul_free, nul_free_erase_front, Hnul.
  - apply erase_front_short.
Qed.

Lemma code_fence_language_token_witness :
  let c := set_is_in_pre_ true
             (set_offset_lt_ 5 (set_index_ch_in_html_ 32
                (AppendToMd "```" (Converter_init html_rust_block)))) in
  md_ (TagCode.OnHasLeftOpeningTag c)
    = md_ (when (ch_eq (prev_ch_in_md_ c) " "%char) (ShortenMarkdown 1) c)
        ++ c_str (erase_front 9 "language-rust") ++ nl
  /\ (nul_free "language-rust" = true
      -> c_str (erase_front 9 "language-rust") = erase_front 9 "language-rust")
  /\ ((String.length "language-rust" <= 9)%nat
      -> erase_front 9 "language-rust" = EmptyString).
Proof.
  apply (code_fence_language_token
           (set_is_in_pre_ true
             (set_offset_lt_ 5 (set_index_ch_in_html_ 32
                (AppendToMd "```" (Converter_init html_rust_block)))))
           "language-rust");
    [reflexivity | reflexivity | reflexivity | reflexivity | discriminate].
Defined.

(** ** The content filter *)

(** C2, as the claim states it, fails: below [script] then [pre] both an
    ignored tag and [pre] are ancestors, and the character is dropped. *)
Lemma content_below_script_then_pre_is_dropped :
  exists c, scan 0 (chars html_script_pre) (Converter_init html_script_pre) = Some c
    /\ is_in_tag_ c = false
    /\ dom_tags_ c = ["script"; "pre"]
    /\ has_ignored_ancestor c = true
    /\ has_pre_or_title_ancestor c = true
    /\ ParseCharInTagContent "x"%char c = c
    /\ md_ (ParseCharInTagContent "x"%char c) <> md_ c ++ "x".
Proof.
  eexists. split; [vm_compute; reflexivity|].
  repeat (split; [reflexivity|]). vm_compute. discriminate.
Qed.

Lemma IsInIgnoredTag_from_cons (t : string) (tags : list string) :
  IsInIgnoredTag_from (t :: tags)
  = if is_pre_or_title t then false
    else if IsIgnoredTag t then true else IsInIgnoredTag_from tags.
Proof. reflexivity. Qed.

Lemma IsInIgnoredTag_from_outermost (tags : list string) :
  IsInIgnoredTag_from tags = true <->
  exists (outer : list string) (tag : string) (inner : list string),
    tags = (outer ++ tag :: inner)%list
    /\ IsIgnoredTag tag = true
    /\ is_pre_or_title tag = false
    /\ forallb (fun t => negb (is_pre_or_title t || IsIgnoredTag t)) outer = true.
Proof.
  induction tags as [|t tags IH].
  - split; [discriminate|]. intros (outer & tag & inner & E & _).
    destruct outer; discriminate.
  - rewrite IsInIgnoredTag_from_cons. destruct (is_pre_or_title t) eqn:Ept.
    + split; [discriminate|]. intros (outer & tag & inner & E & Hi & Hpt & Hout).
      destruct outer as [|o outer]; simpl in E; injection E as -> ->.
      * congruence.
      * simpl in Hout. rewrite Ept in Hout. discriminate.
    + destruct (IsIgnoredTag t) eqn:Ei.
      * split; [|reflexivity]. intros _. exists [], t, tags. auto.
      * rewrite IH. split.
        -- intros (outer & tag & inner & -> & Hi & Hpt & Hout).
           exists (t :: outer), tag, inner. simpl. rewrite Ept, Ei. auto.
        -- intros (outer & tag & inner & E & Hi & Hpt & Hout).
           destruct outer as [|o outer]; simpl in E; injection E as -> ->; [congruence|].
           simpl in Hout. rewrite Ept, Ei in Hout. simpl in Hout.
           exists outer, tag, inner. auto.
Qed.

Lemma IsInIgnoredTag_from_without_override (tags : list string) :
  existsb IsIgnoredTag tags = true ->
  existsb is_pre_or_title tags = false ->
  IsInIgnoredTag_from tags = true.
Proof.
  induction tags as [|t tags IH]; [discriminate|].
  rewrite IsInIgnoredTag_from_cons. cbn [existsb]. intros Hign Hpt.
  apply orb_false_iff in Hpt. destruct Hpt as [Hpt Hrest].
  rewrite Hpt. destruct (IsIgnoredTag t) eqn:Ei; [reflexivity|].
  apply IH; assumption.
Qed.

(** C2, amended: [IsInIgnoredTag] holds exactly when the outermost tag of
    the ancestry stack that is ignored, [pre] or [title] is an ignored one;
    then a character scanned in Text state is dropped.  That is the case
    when an ignored tag is an ancestor and neither [pre] nor [title] is.
    When [IsInIgnoredTag] fails, a character inside pre or code is written. *)
Theorem content_filter_outermost_marker_decides (c : Converter) (ch : ascii) :
  (IsInIgnoredTag c = true <->
   exists (outer : list string) (tag : string) (inner : list string),
     dom_tags_ c = (outer ++ tag :: inner)%list
     /\ IsIgnoredTag tag = true
     /\ is_pre_or_title tag = false
     /\ forallb (fun t => negb (is_pre_or_title t || IsIgnoredTag t)) outer = true)
  /\ (IsInIgnoredTag c = true -> ParseCharInTagContent ch c = c)
  /\ (has_ignored_ancestor c = true -> has_pre_or_title_ancestor c = false ->
      ParseCharInTagContent ch c = c)
  /\ (IsInIgnoredTag c = false -> (is_in_pre_ c || is_in_code_ c)%bool = true ->
      md_ (ParseCharInTagContent ch c) = md_ c ++ String ch EmptyString).
Proof.
  split; [apply IsInIgnoredTag_from_outermost|].
  assert (Hdrop : IsInIgnoredTag c = true -> ParseCharInTagContent ch c = c).
  { intros H. unfold ParseCharInTagContent. now rewrite H. }
  split; [exact Hdrop|]. split.
  - intros Hign Hpt. apply Hdrop.
    apply IsInIgnoredTag_from_without_override; assumption.
  - intros Hign Hpre. unfold ParseCharInTagContent. rewrite Hign, Hpre. reflexivity.
Qed.


(** ** The scanner and the tags of a document *)

Lemma OnHasLeftClosingTag_scanner_state (tag : Tag) (fuel : nat) (c c' : Converter) :
  OnHasLeftClosingTag tag fuel c = Some c' -> scanner_state c' = scanner_state c.
Proof.
  destruct tag; cbn [OnHasLeftClosingTag]; intros H;
    try (injection H as <-;
         first [ reflexivity
               | unfold TagAnchor.OnHasLeftClosingTag, TagBold.OnHasLeftClosingTag,
                   TagItalic.OnHasLeftClosingTag, TagUnderline.OnHasLeftClosingTag,
                   TagStrikethrought.OnHasLeftClosingTag,
                   TagHeader1.OnHasLeftClosingTag, TagHeader2.OnHasLeftClosingTag,
                   TagHeader3.OnHasLeftClosingTag, TagHeader4.OnHasLeftClosingTag,
                   TagHeader5.OnHasLeftClosingTag, TagHeader6.OnHasLeftClosingTag,
                   Header_OnHasLeftClosingTag,
                   TagListItem.OnHasLeftClosingTag, TagOption.OnHasLeftClosingTag,
                   TagOrderedList.OnHasLeftClosingTag, TagParagraph.OnHasLeftClosingTag,
                   TagPre.OnHasLeftClosingTag, TagCode.OnHasLeftClosingTag,
                   TagSpan.OnHasLeftClosingTag, TagUnorderedList.OnHasLeftClosingTag,
                   TagImage.OnHasLeftClosingTag, TagTable.OnHasLeftClosingTag,
                   TagTableRow.OnHasLeftClosingTag, TagBlockquote.OnHasLeftClosingTag,
                   AppendBlank, when;
                 cbv zeta; split_ifs; reflexivity ]).
  unfold TagTitle.OnHasLeftClosingTag, TurnLineIntoHeader1 in H.
  frame_option H. reflexivity.
Qed.

Lemma OnHasLeftOpeningTag_scanner_state (tag : Tag) (fuel : nat) (c c' : Converter) :
  OnHasLeftOpeningTag tag fuel c = Some c' -> scanner_state c' = scanner_state c.
Proof.
  destruct tag; cbn [OnHasLeftOpeningTag]; intros H;
    try (injection H as <-;
         first [ reflexivity
               | unfold TagAnchor.OnHasLeftOpeningTag, TagBold.OnHasLeftOpeningTag,
                   TagItalic.OnHasLeftOpeningTag, TagUnderline.OnHasLeftOpeningTag,
                   TagStrikethrought.OnHasLeftOpeningTag, TagDiv.OnHasLeftOpeningTag,
                   TagListItem.OnHasLeftOpeningTag, TagOrderedList.OnHasLeftOpeningTag,
                   TagCode.OnHasLeftOpeningTag, TagUnorderedList.OnHasLeftOpeningTag,
                   TagImage.OnHasLeftOpeningTag, TagTableHeader.OnHasLeftOpeningTag,
                   TagTableData.OnHasLeftOpeningTag, TagBlockquote.OnHasLeftOpeningTag,
                   AppendBlank, when;
                 cbv zeta; split_ifs; reflexivity ]).
  - unfold TagBreak.OnHasLeftOpeningTag in H. frame_option H; unfold when; split_ifs; reflexivity.
  - unfold TagParagraph.OnHasLeftOpeningTag in H. cbv zeta in H.
    frame_option H; reflexivity.
  - unfold TagPre.OnHasLeftOpeningTag in H. cbv zeta in H. unfold when in H.
    frame_option H; reflexivity.
Qed.




(** ** The ancestry stack and the verdict *)













(** ** The tags of a document written piece by piece *)

Lemma Split_without_delimiter (l : list ascii) (d : ascii) :
  forallb (fun ch => negb (Ascii.eqb ch d)) l = true -> utils.Split l d = [l].
Proof.
  induction l as [|ch l IH]; [reflexivity|].
  cbn [forallb utils.Split]. intros H. apply andb_true_iff in H. destruct H as [Hch Hl].
  apply negb_true_iff in Hch. rewrite Hch, (IH Hl). reflexivity.
Qed.

Lemma name_char_spec (ch : ascii) :
  name_char ch = true ->
  ch_eq ch "<"%char = false /\ ch_eq ch ">"%char = false /\ ch_eq ch "/"%char = false
  /\ ch_eq ch "="%char = false /\ is_quote ch = false /\ isspace ch = false
  /\ tolower ch = ch.
Proof.
  unfold name_char. intros H.
  repeat (apply andb_true_iff in H; destruct H as [H ?]).
  repeat match goal with
         | Hn : negb _ = true |- _ => apply negb_true_iff in Hn
         end.
  repeat (split; [assumption|]).
  apply Ascii.eqb_eq. assumption.
Qed.

Lemma tag_name_plain (name : string) :
  forallb name_char (chars name) = true -> tag_name name = name.
Proof.
  intros H. unfold tag_name.
  rewrite Split_without_delimiter.
  - cbn [hd]. replace (map tolower (chars name)) with (chars name).
    + apply string_of_list_ascii_of_string.
    + induction (chars name) as [|ch l IH]; [reflexivity|].
      cbn [forallb] in H. apply andb_true_iff in H. destruct H as [Hch Hl].
      apply name_char_spec in Hch. destruct Hch as (_ & _ & _ & _ & _ & _ & Hlow).
      cbn [map]. rewrite Hlow, <- (IH Hl). reflexivity.
  - induction (chars name) as [|ch l IH]; [reflexivity|].
    cbn [forallb] in H |- *. apply andb_true_iff in H. destruct H as [Hch Hl].
    rewrite (IH Hl), andb_true_r.
    apply name_char_spec in Hch. destruct Hch as (_ & _ & _ & _ & _ & Hsp & _).
    destruct (Ascii.eqb ch " "%char) eqn:E; [|reflexivity].
    apply Ascii.eqb_eq in E. subst ch. discriminate Hsp.
Qed.

(** Text outside a tag gives no tag. *)
Lemma tag_events_text (text rest : list ascii) :
  forallb (fun ch => negb (ch_eq ch "<"%char)) text = true ->
  forall s : Lexer,
    lex_in_tag s = false -> lex_in_value s = false ->
    exists s' : Lexer,
      lex_in_tag s' = false /\ lex_in_value s' = false
      /\ tag_events_from (text ++ rest) s = tag_events_from rest s'.
Proof.
  induction text as [|ch text IH]; intros H s Htag Hvalue.
  - exists s. repeat split; assumption.
  - cbn [forallb] in H. apply andb_true_iff in H. destruct H as [Hch Htext].
    apply negb_true_iff in Hch.
    cbn [app tag_events_from]. unfold lex_step. rewrite Hch, Htag. cbn [andb].
    apply (IH Htext); [reflexivity | exact Hvalue].
Qed.

(** The characters of a plain name are accumulated in the text of the tag. *)
Lemma tag_events_name (name rest : list ascii) :
  forallb name_char name = true ->
  forall (closing : bool) (token : string) (prev : ascii),
    exists prev' : ascii,
      tag_events_from (name ++ rest) (mkLexer true false closing token prev)
      = tag_events_from rest (mkLexer true false closing (token ++ of_chars name) prev').
Proof.
  induction name as [|ch name IH]; intros H closing token prev.
  - exists prev. cbn [app of_chars string_of_list_ascii].
    rewrite append_empty_r. reflexivity.
  - cbn [forallb] in H. apply andb_true_iff in H. destruct H as [Hch Hname].
    apply name_char_spec in Hch.
    destruct Hch as (Hlt & Hgt & Hslash & Heq & Hquote & Hspace & _).
    cbn [app tag_events_from]. unfold lex_step.
    cbn [lex_in_tag lex_in_value lex_closing lex_token lex_prev].
    rewrite Hlt, Hgt, Hslash, Heq, Hquote, Hspace. cbn [andb].
    destruct (IH Hname closing (token ++ String ch EmptyString) ch) as [prev' E].
    exists prev'. rewrite E.
    change (of_chars (ch :: name)) with (String ch EmptyString ++ of_chars name).
    rewrite append_assoc. reflexivity.
Qed.

Lemma tag_events_document_from (pieces : list Piece) :
  forallb plain pieces = true ->
  forall s : Lexer,
    lex_in_tag s = false -> lex_in_value s = false ->
    tag_events_from (chars (document pieces)) s = tags pieces.
Proof.
  induction pieces as [|piece pieces IH]; intros H s Htag Hvalue; [reflexivity|].
  cbn [forallb] in H. apply andb_true_iff in H. destruct H as [Hpiece Hpieces].
  cbn [document fold_right]. fold (document pieces).
  rewrite chars_app.
  destruct piece as [text|name|name]; cbn [plain] in Hpiece; cbn [markup tags flat_map app].
  - destruct (tag_events_text _ (chars (document pieces)) Hpiece s Htag Hvalue)
      as (s' & Htag' & Hvalue' & E).
    rewrite E. apply IH; assumption.
  - change (chars ("<" ++ name ++ ">")) with ("<"%char :: chars (name ++ ">")).
    rewrite chars_app. cbn [app tag_events_from]. unfold lex_step at 1.
    rewrite Hvalue. cbn [ch_eq Ascii.eqb Bool.eqb andb negb].
    rewrite <- app_assoc.
    destruct (tag_events_name _ (chars ">" ++ chars (document pieces)) Hpiece
                false EmptyString "<"%char) as [prev' E].
    rewrite E. cbn [app chars list_ascii_of_string tag_events_from]. unfold lex_step at 1.
    cbn [lex_in_tag lex_in_value lex_closing lex_token lex_prev
         ch_eq Ascii.eqb Bool.eqb andb negb String.append].
    unfold of_chars. rewrite string_of_list_ascii_of_string.
    f_equal. apply IH; [exact Hpieces | reflexivity | reflexivity].
  - change (chars ("</" ++ name ++ ">")) with ("<"%char :: "/"%char :: chars (name ++ ">")).
    rewrite chars_app. cbn [app tag_events_from]. unfold lex_step at 1.
    rewrite Hvalue. cbn [ch_eq Ascii.eqb Bool.eqb andb negb].
    unfold lex_step at 1.
    cbn [lex_in_tag lex_in_value lex_closing lex_token lex_prev
         ch_eq Ascii.eqb Bool.eqb andb negb].
    rewrite <- app_assoc.
    destruct (tag_events_name _ (chars ">" ++ chars (document pieces)) Hpiece
                true EmptyString "/"%char) as [prev' E].
    rewrite E. cbn [app chars list_ascii_of_string tag_events_from]. unfold lex_step at 1.
    cbn [lex_in_tag lex_in_value lex_closing lex_token lex_prev
         ch_eq Ascii.eqb Bool.eqb andb negb String.append].
    unfold of_chars. rewrite string_of_list_ascii_of_string.
    rewrite (tag_name_plain _ Hpiece).
    f_equal. apply IH; [exact Hpieces | reflexivity | reflexivity].
Qed.

(** The tags the scanner finds in a document of plain pieces are the tags
    written in it. *)
Lemma tag_events_document (pieces : list Piece) :
  forallb plain pieces = true -> tag_events (document pieces) = tags pieces.
Proof. intros H. apply tag_events_document_from; [exact H | reflexivity | reflexivity]. Qed.




(** ** The normalizer: trimming *)

Section Trimming.
Context {A : Type}.
Variable p : A -> bool.

Lemma drop_while_suffix (l : list A) : exists a, l = (a ++ drop_while p l)%list.
Proof.
  induction l as [|x l [a IH]]; [exists []; reflexivity|].
  simpl. destruct (p x).
  - exists (x :: a). simpl. now rewrite <- IH.
  - exists []. reflexivity.
Qed.

Lemma drop_while_idempotent (l : list A) :
  drop_while p (drop_while p l) = drop_while p l.
Proof.
  induction l as [|x l IH]; [reflexivity|]. simpl.
  destruct (p x) eqn:E; [exact IH|]. simpl. now rewrite E.
Qed.

Lemma drop_while_nil_iff (l : list A) :
  drop_while p l = [] <-> forallb p l = true.
Proof.
  induction l as [|x l IH]; simpl; [tauto|].
  destruct (p x); simpl; [exact IH|]. split; discriminate.
Qed.

Lemma drop_while_fixed (l : list A) :
  drop_while p l = l <-> match l with [] => True | x :: _ => p x = false end.
Proof.
  destruct l as [|x l]; simpl; [tauto|].
  destruct (p x) eqn:E; split; try congruence; try reflexivity.
  intros H. destruct (drop_while_suffix l) as [a Ha].
  rewrite H in Ha. apply (f_equal (@List.length A)) in Ha.
  rewrite length_app in Ha. simpl in Ha. lia.
Qed.

Lemma drop_while_end_nil_iff (l : list A) :
  drop_while_end p l = [] <-> forallb p l = true.
Proof.
  induction l as [|x l IH]; simpl; [tauto|].
  destruct (drop_while_end p l) as [|y k].
  - destruct (p x); simpl; [tauto|]. split; discriminate.
  - split; [discriminate|]. intros H. apply andb_true_iff in H.
    destruct H as [_ H]. apply IH in H. discriminate.
Qed.

Lemma drop_while_end_idempotent (l : list A) :
  drop_while_end p (drop_while_end p l) = drop_while_end p l.
Proof.
  induction l as [|x l IH]; [reflexivity|]. simpl.
  destruct (drop_while_end p l) as [|y k] eqn:E.
  - destruct (p x) eqn:Ex; [reflexivity|]. simpl. now rewrite Ex.
  - cbn [drop_while_end]. cbn [drop_while_end] in IH. rewrite IH. reflexivity.
Qed.

Lemma drop_while_end_app (a b : list A) :
  drop_while_end p (a ++ b)
  = match drop_while_end p b with
    | [] => drop_while_end p a
    | kept => (a ++ kept)%list
    end.
Proof.
  induction a as [|x a IH]; simpl.
  - destruct (drop_while_end p b); reflexivity.
  - rewrite IH. destruct (drop_while_end p b) as [|y k]; [reflexivity|].
    destruct a; reflexivity.
Qed.

Lemma drop_while_end_fixed_suffix (a b : list A) :
  drop_while_end p (a ++ b) = (a ++ b)%list -> drop_while_end p b = b.
Proof.
  rewrite drop_while_end_app.
  destruct (drop_while_end p b) as [|y k] eqn:E.
  - intros H. destruct b as [|z b]; [reflexivity|].
    pose proof (drop_while_end_idempotent a) as Hi. 
    assert (Hlen : (List.length (drop_while_end p a) <= List.length a)%nat).
    { clear. induction a as [|x a IH]; simpl; [lia|].
      destruct (drop_while_end p a); [destruct (p x)|]; simpl in *; lia. }
    rewrite H, length_app in Hlen. simpl in Hlen. lia.
  - intros H. apply app_inv_head in H. exact H.
Qed.

Lemma drop_while_end_fixed_drop_while (l : list A) :
  drop_while_end p l = l -> drop_while_end p (drop_while p l) = drop_while p l.
Proof.
  intros H. destruct (drop_while_suffix l) as [a Ha].
  apply (drop_while_end_fixed_suffix a). rewrite <- Ha. exact H.
Qed.

Lemma Forall_drop_while (P : A -> Prop) (l : list A) :
  Forall P l -> Forall P (drop_while p l).
Proof.
  induction 1 as [|x l Hx Hl IH]; simpl; [constructor|].
  destruct (p x); [exact IH | constructor; assumption].
Qed.

Lemma Forall_drop_while_end (P : A -> Prop) (l : list A) :
  Forall P l -> Forall P (drop_while_end p l).
Proof.
  induction 1 as [|x l Hx Hl IH]; simpl; [constructor|].
  destruct (drop_while_end p l).
  - destruct (p x); constructor; [assumption | constructor].
  - constructor; assumption.
Qed.
End Trimming.


Lemma Trim_trimmed (l : list ascii) : trimmed (Trim l).
Proof.
  unfold trimmed, Trim, LTrim, RTrim. split.
  - apply drop_while_idempotent.
  - apply drop_while_end_fixed_drop_while, drop_while_end_idempotent.
Qed.

Lemma trimmed_Trim (l : list ascii) : trimmed l -> Trim l = l.
Proof. intros [H1 H2]. unfold Trim, LTrim, RTrim. now rewrite H2. Qed.

Lemma Trim_idempotent (l : list ascii) : Trim (Trim l) = Trim l.
Proof. apply trimmed_Trim, Trim_trimmed. Qed.

Lemma Trim_blank_line (l : list ascii) : blank_line l = true -> Trim l = [].
Proof.
  intros H. unfold Trim, LTrim, RTrim.
  apply (drop_while_end_nil_iff isspace) in H. rewrite H. reflexivity.
Qed.

Lemma Trim_nil_blank_line (l : list ascii) : Trim l = [] -> blank_line l = true.
Proof.
  unfold Trim, LTrim, RTrim, blank_line. intros H.
  apply drop_while_nil_iff in H.
  apply drop_while_end_nil_iff.
  remember (drop_while_end isspace l) as k eqn:E.
  assert (Hfix : drop_while_end isspace k = k).
  { subst k. apply drop_while_end_idempotent. }
  apply (drop_while_end_nil_iff isspace) in H. rewrite Hfix in H. exact H.
Qed.

(** ** Lines *)



Lemma Split_not_nil (l : list ascii) (d : ascii) : utils.Split l d <> [].
Proof.
  destruct l as [|ch l]; simpl; [discriminate|].
  destruct (Ascii.eqb ch d); [discriminate|].
  destruct (utils.Split l d); discriminate.
Qed.

Lemma join_lines_cons (line : list ascii) (rest : list (list ascii)) :
  rest <> [] -> join_lines (line :: rest) = (line ++ ch_nl :: join_lines rest)%list.
Proof. destruct rest; [congruence | reflexivity]. Qed.

Lemma join_Split (l : list ascii) : join_lines (utils.Split l ch_nl) = l.
Proof.
  induction l as [|ch l IH]; [reflexivity|]. simpl.
  destruct (Ascii.eqb_spec ch ch_nl) as [->|Hne].
  - rewrite join_lines_cons by apply Split_not_nil. simpl. now rewrite IH.
  - destruct (utils.Split l ch_nl) as [|x xs] eqn:E.
    + exfalso. eapply Split_not_nil, E.
    + destruct xs as [|y ys].
      * simpl in *. now rewrite IH.
      * rewrite join_lines_cons by discriminate.
        rewrite join_lines_cons in IH by discriminate.
        rewrite <- IH. reflexivity.
Qed.

Lemma Split_no_newline (line : list ascii) :
  no_newline line -> utils.Split line ch_nl = [line].
Proof.
  unfold no_newline. induction line as [|ch line IH]; [reflexivity|].
  intros H. simpl. destruct (Ascii.eqb_spec ch ch_nl) as [->|Hne].
  - exfalso. apply H. left. reflexivity.
  - rewrite IH; [reflexivity|]. intros Hin. apply H. right. exact Hin.
Qed.

Lemma Split_app_newline (line rest : list ascii) :
  no_newline line ->
  utils.Split (line ++ ch_nl :: rest) ch_nl = line :: utils.Split rest ch_nl.
Proof.
  unfold no_newline. induction line as [|ch line IH]; intros H.
  - reflexivity.
  - simpl. destruct (Ascii.eqb_spec ch ch_nl) as [->|Hne].
    + exfalso. apply H. left. reflexivity.
    + rewrite IH; [reflexivity|]. intros Hin. apply H. right. exact Hin.
Qed.

Lemma Split_join (lines : list (list ascii)) :
  lines <> [] -> Forall no_newline lines ->
  utils.Split (join_lines lines) ch_nl = lines.
Proof.
  induction lines as [|line rest IH]; [congruence|].
  intros _ H. inversion H as [|? ? Hline Hrest]; subst.
  destruct rest as [|x xs].
  - apply Split_no_newline, Hline.
  - rewrite join_lines_cons by discriminate.
    rewrite Split_app_newline by exact Hline.
    rewrite IH; [reflexivity | discriminate | exact Hrest].
Qed.

Lemma Split_lines_no_newline (l : list ascii) :
  Forall no_newline (utils.Split l ch_nl).
Proof.
  induction l as [|ch l IH]; simpl.
  - constructor; [intros [] | constructor].
  - destruct (Ascii.eqb_spec ch ch_nl) as [->|Hne].
    + constructor; [intros [] | exact IH].
    + destruct (utils.Split l ch_nl) as [|x xs].
      * constructor; [|constructor]. intros [E|[]]. congruence.
      * inversion IH as [|? ? Hx Hxs]; subst. constructor; [|exact Hxs].
        intros [E|Hin]; [congruence | exact (Hx Hin)].
Qed.

Lemma no_newline_sub (p : ascii -> bool) (line : list ascii) :
  no_newline line -> no_newline (drop_while p line) /\ no_newline (drop_while_end p line).
Proof.
  unfold no_newline. intros H. split; intros Hin; apply H.
  - assert (F : Forall (fun ch => ch <> ch_nl) line).
    { apply Forall_forall. intros ch Hch ->. exact (H Hch). }
    apply (Forall_drop_while p) in F. rewrite Forall_forall in F.
    exfalso. exact (F _ Hin eq_refl).
  - assert (F : Forall (fun ch => ch <> ch_nl) line).
    { apply Forall_forall. intros ch Hch ->. exact (H Hch). }
    apply (Forall_drop_while_end p) in F. rewrite Forall_forall in F.
    exfalso. exact (F _ Hin eq_refl).
Qed.

Lemma Trim_no_newline (line : list ascii) : no_newline line -> no_newline (Trim line).
Proof.
  intros H. unfold Trim, LTrim, RTrim.
  apply no_newline_sub. apply (no_newline_sub isspace line H).
Qed.

(** ** Trimming a text made of trimmed lines *)

Lemma join_lines_nil_iff (lines : list (list ascii)) :
  join_lines lines = [] -> lines = [] \/ lines = [[]].
Proof.
  destruct lines as [|line rest]; [auto|].
  destruct rest as [|x xs]; simpl.
  - intros ->. auto.
  - intros H. apply app_eq_nil in H. destruct H as [_ H]. discriminate.
Qed.

Lemma LTrim_join_lines (lines : list (list ascii)) :
  Forall trimmed lines ->
  LTrim (join_lines lines) = join_lines (drop_while nilb lines).
Proof.
  induction 1 as [|line rest Hline Hrest IH]; [reflexivity|].
  destruct rest as [|x xs].
  - simpl. destruct line as [|ch line]; [reflexivity|]. simpl. apply Hline.
  - rewrite join_lines_cons by discriminate.
    destruct line as [|ch line].
    + simpl app. cbn [drop_while nilb]. unfold LTrim in *.
      change (drop_while isspace (ch_nl :: ?l)) with (drop_while isspace l).
      exact IH.
    + cbn [drop_while nilb]. rewrite (join_lines_cons (ch :: line)) by discriminate.
      destruct Hline as [Hl _]. apply drop_while_fixed in Hl.
      unfold LTrim. simpl. now rewrite Hl.
Qed.

Lemma drop_while_end_lines_join (lines : list (list ascii)) :
  drop_while_end nilb lines = lines -> lines <> [] -> join_lines lines <> [].
Proof.
  intros Hfix Hne Hjoin. apply join_lines_nil_iff in Hjoin.
  destruct Hjoin as [->| ->]; [congruence | discriminate].
Qed.

Lemma RTrim_join_lines (lines : list (list ascii)) :
  Forall trimmed lines ->
  RTrim (join_lines lines) false = join_lines (drop_while_end nilb lines).
Proof.
  unfold RTrim. induction 1 as [|line rest Hline Hrest IH]; [reflexivity|].
  destruct rest as [|x xs].
  - simpl. destruct Hline as [_ Hl]. rewrite Hl. destruct line; reflexivity.
  - rewrite join_lines_cons by discriminate.
    rewrite drop_while_end_app.
    change (drop_while_end isspace (ch_nl :: ?l))
      with (match drop_while_end isspace l with
            | [] => []
            | kept => ch_nl :: kept
            end).
    rewrite IH.
    change (drop_while_end nilb (line :: x :: xs))
      with (match drop_while_end nilb (x :: xs) with
            | [] => if nilb line then [] else [line]
            | kept => line :: kept
            end).
    destruct (drop_while_end nilb (x :: xs)) as [|y k] eqn:E.
    + simpl. destruct Hline as [_ Hl]. rewrite Hl. destruct line; reflexivity.
    + assert (Hne : join_lines (y :: k) <> []).
      { apply drop_while_end_lines_join; [|discriminate].
        rewrite <- E. apply drop_while_end_idempotent. }
      destruct (join_lines (y :: k)) as [|c0 j] eqn:Ej; [congruence|].
      rewrite join_lines_cons by discriminate. rewrite Ej. reflexivity.
Qed.


Lemma Trim_join_lines (lines : list (list ascii)) :
  Forall trimmed lines ->
  Trim (join_lines lines) = join_lines (strip_blank_lines lines).
Proof.
  intros H. unfold Trim. rewrite RTrim_join_lines by exact H.
  apply LTrim_join_lines. apply Forall_drop_while_end. exact H.
Qed.

Lemma strip_blank_lines_idempotent (lines : list (list ascii)) :
  strip_blank_lines (strip_blank_lines lines) = strip_blank_lines lines.
Proof.
  unfold strip_blank_lines.
  rewrite (drop_while_end_fixed_drop_while nilb) by apply drop_while_end_idempotent.
  apply drop_while_idempotent.
Qed.

(** ** Runs of blank lines *)

Lemma collapse_blank_lines_length (k : nat) (lines : list (list ascii)) :
  (List.length (collapse_blank_lines k lines) <= List.length lines)%nat.
Proof.
  revert k. induction lines as [|line rest IH]; intros k; simpl; [lia|].
  destruct line.
  - destruct (Nat.ltb k 2); simpl; [specialize (IH (S k)) | specialize (IH k)]; lia.
  - simpl. specialize (IH O). lia.
Qed.

Lemma collapse_blank_lines_idempotent (k : nat) (lines : list (list ascii)) :
  collapse_blank_lines k (collapse_blank_lines k lines) = collapse_blank_lines k lines.
Proof.
  revert k. induction lines as [|line rest IH]; intros k; [reflexivity|].
  destruct line as [|ch line]; simpl.
  - destruct (Nat.ltb k 2) eqn:E; [|apply IH]. simpl. rewrite E, IH. reflexivity.
  - rewrite IH. reflexivity.
Qed.

Lemma Forall_collapse_blank_lines (P : list ascii -> Prop) (k : nat)
      (lines : list (list ascii)) :
  Forall P lines -> Forall P (collapse_blank_lines k lines).
Proof.
  intros H. revert k. induction H as [|line rest Hline Hrest IH]; intros k; simpl.
  - constructor.
  - destruct line; [destruct (Nat.ltb k 2)|]; try constructor; auto.
Qed.

Lemma collapse_fixed_blank (k : nat) (rest : list (list ascii)) :
  collapse_blank_lines k ([] :: rest) = [] :: rest ->
  Nat.ltb k 2 = true /\ collapse_blank_lines (S k) rest = rest.
Proof.
  simpl. destruct (Nat.ltb k 2).
  - intros H. injection H as H. auto.
  - intros H. pose proof (collapse_blank_lines_length k rest) as L.
    rewrite H in L. simpl in L. lia.
Qed.

Lemma collapse_fixed_drop_while (k : nat) (lines : list (list ascii)) :
  collapse_blank_lines k lines = lines ->
  collapse_blank_lines 0 (drop_while nilb lines) = drop_while nilb lines.
Proof.
  revert k. induction lines as [|line rest IH]; intros k H; [reflexivity|].
  destruct line as [|ch line].
  - apply collapse_fixed_blank in H. destruct H as [_ H]. simpl. eapply IH, H.
  - simpl in *. exact H.
Qed.

Lemma collapse_fixed_drop_while_end (k : nat) (lines : list (list ascii)) :
  collapse_blank_lines k lines = lines ->
  collapse_blank_lines k (drop_while_end nilb lines) = drop_while_end nilb lines.
Proof.
  revert k. induction lines as [|line rest IH]; intros k H; [reflexivity|].
  destruct line as [|ch line].
  - apply collapse_fixed_blank in H. destruct H as [Hk H].
    apply IH in H. cbn [drop_while_end].
    destruct (drop_while_end nilb rest) as [|y kept]; [reflexivity|].
    simpl. rewrite Hk. simpl in H. rewrite H. reflexivity.
  - simpl in H. injection H as H. apply IH in H. cbn [drop_while_end].
    destruct (drop_while_end nilb rest) as [|y kept]; [reflexivity|].
    simpl. simpl in H. rewrite H. reflexivity.
Qed.

Lemma collapse_fixed_strip (lines : list (list ascii)) :
  collapse_blank_lines 0 lines = lines ->
  collapse_blank_lines 0 (strip_blank_lines lines) = strip_blank_lines lines.
Proof.
  intros H. unfold strip_blank_lines.
  eapply collapse_fixed_drop_while, collapse_fixed_drop_while_end, H.
Qed.

Lemma map_Trim_trimmed (lines : list (list ascii)) :
  Forall trimmed lines -> map Trim lines = lines.
Proof.
  induction 1 as [|line rest Hline _ IH]; [reflexivity|].
  simpl. now rewrite IH, trimmed_Trim.
Qed.


Lemma tidy_lines_ok (text : list ascii) :
  Forall trimmed (tidy_lines text) /\ Forall no_newline (tidy_lines text)
  /\ collapse_blank_lines 0 (tidy_lines text) = tidy_lines text.
Proof.
  unfold tidy_lines. split; [|split].
  - apply Forall_collapse_blank_lines, Forall_forall. intros line Hin.
    apply in_map_iff in Hin. destruct Hin as (x & <- & _). apply Trim_trimmed.
  - apply Forall_collapse_blank_lines, Forall_forall. intros line Hin.
    apply in_map_iff in Hin. destruct Hin as (x & <- & Hx).
    apply Trim_no_newline.
    pose proof (Split_lines_no_newline text) as F. rewrite Forall_forall in F. auto.
  - apply collapse_blank_lines_idempotent.
Qed.

Lemma CleanUp_lines (text : list ascii) :
  CleanUp text = join_lines (strip_blank_lines (tidy_lines text)).
Proof.
  unfold CleanUp, TidyAllLines. fold (tidy_lines text).
  apply Trim_join_lines, tidy_lines_ok.
Qed.

Lemma CleanUp_fixed (lines : list (list ascii)) :
  Forall trimmed lines -> Forall no_newline lines ->
  collapse_blank_lines 0 lines = lines ->
  strip_blank_lines lines = lines ->
  CleanUp (join_lines lines) = join_lines lines.
Proof.
  intros Htrim Hnl Hcol Hstrip.
  destruct lines as [|line rest]; [reflexivity|].
  unfold CleanUp, TidyAllLines.
  rewrite Split_join by (discriminate || assumption).
  rewrite map_Trim_trimmed, Hcol by assumption.
  rewrite Trim_join_lines, Hstrip by assumption. reflexivity.
Qed.

(** C4: the normalizer pass (trim every line, collapse the blank lines,
    trim the whole document) is idempotent, on the text and on the
    converter that holds it. *)
Theorem CleanUpMarkdown_idempotent (c : Converter) :
  CleanUp (CleanUp (chars (md_ c))) = CleanUp (chars (md_ c))
  /\ CleanUpMarkdown (CleanUpMarkdown c) = CleanUpMarkdown c.
Proof.
  assert (H : forall text, CleanUp (CleanUp text) = CleanUp text).
  { intros text. rewrite (CleanUp_lines text).
    destruct (tidy_lines_ok text) as (Htrim & Hnl & Hcol).
    apply CleanUp_fixed.
    - apply Forall_drop_while, Forall_drop_while_end, Htrim.
    - apply Forall_drop_while, Forall_drop_while_end, Hnl.
    - apply collapse_fixed_strip, Hcol.
    - apply strip_blank_lines_idempotent. }
  split; [apply H|].
  unfold CleanUpMarkdown.
  change (md_ (write_md ?m c)) with m.
  rewrite chars_of_chars, H.
  destruct c; reflexivity.
Qed.



Lemma blank_lines_kept_min (n : nat) : blank_lines_kept n = Nat.min n 2.
Proof.
  unfold blank_lines_kept. destruct (Nat.leb_spec 3 n); lia.
Qed.

Lemma map_Trim_all_blank (lines : list (list ascii)) :
  all_blank lines -> map Trim lines = repeat [] (List.length lines).
Proof.
  induction 1 as [|line rest Hline _ IH]; [reflexivity|].
  simpl. now rewrite IH, Trim_blank_line.
Qed.


Lemma map_Trim_layout (blocks : list (list ascii * list (list ascii))) :
  Forall text_block blocks ->
  map Trim (layout blocks) = layout (map trim_block blocks).
Proof.
  induction 1 as [|[line blanks] rest [_ Hblanks] _ IH]; [reflexivity|].
  cbn [layout map]. rewrite map_app, IH, map_Trim_all_blank by exact Hblanks.
  reflexivity.
Qed.

Lemma collapse_blank_run (n k : nat) (rest : list (list ascii)) :
  collapse_blank_lines k (repeat [] n ++ rest)
  = (repeat [] (Nat.min n (2 - k))
       ++ collapse_blank_lines (k + Nat.min n (2 - k)) rest)%list.
Proof.
  revert k. induction n as [|n IH]; intros k.
  - simpl. now rewrite Nat.add_0_r.
  - cbn [repeat app collapse_blank_lines].
    destruct (Nat.ltb_spec k 2) as [Hk|Hk].
    + rewrite IH.
      replace (Nat.min (S n) (2 - k)) with (S (Nat.min n (2 - S k))) by lia.
      cbn [repeat app]. do 2 f_equal. f_equal. lia.
    + rewrite IH.
      replace (Nat.min (S n) (2 - k)) with O by lia.
      replace (Nat.min n (2 - k)) with O by lia. reflexivity.
Qed.

Lemma collapse_layout (blocks : list (list ascii * list (list ascii))) :
  Forall text_block blocks ->
  forall k : nat,
    collapse_blank_lines k (layout (map trim_block blocks))
    = layout (map tidy_block blocks).
Proof.
  induction 1 as [|[line blanks] rest [Hline _] _ IH]; intros k; [reflexivity|].
  cbn [layout map trim_block tidy_block fst snd].
  destruct (Trim line) as [|ch trimmed_line] eqn:E.
  { apply Trim_nil_blank_line in E. simpl in Hline. congruence. }
  cbn [collapse_blank_lines]. rewrite collapse_blank_run, IH.
  rewrite blank_lines_kept_min. reflexivity.
Qed.

(** C3: in a text laid out as runs of blank lines between lines with text,
    [TidyAllLines] trims the lines with text and keeps of every run of blank
    lines two when it has three or more, and all of them when it has fewer. *)
Theorem TidyAllLines_blank_runs
        (head : list (list ascii)) (blocks : list (list ascii * list (list ascii))) :
  Forall no_newline (head ++ layout blocks) ->
  all_blank head ->
  Forall text_block blocks ->
  TidyAllLines (join_lines (head ++ layout blocks))
  = join_lines (repeat [] (blank_lines_kept (List.length head))
                  ++ layout (map tidy_block blocks)).
Proof.
  intros Hnl Hhead Hblocks. unfold TidyAllLines.
  destruct (head ++ layout blocks)%list as [|line rest] eqn:E.
  - apply app_eq_nil in E. destruct E as [-> E].
    destruct blocks as [|[l b] bs]; [reflexivity | discriminate].
  - rewrite Split_join by (discriminate || assumption).
    rewrite <- E, map_app, map_Trim_all_blank, map_Trim_layout by assumption.
    rewrite collapse_blank_run, collapse_layout by assumption.
    rewrite blank_lines_kept_min. reflexivity.
Qed.

Lemma TidyAllLines_blank_runs_witness :
  TidyAllLines (join_lines ([] ++ layout [(chars "a", [[]; chars " "; []; []]);
                                          (chars " b", [[]; []]);
                                          (chars "c", [])]))
  = join_lines (repeat [] (blank_lines_kept 0)
                  ++ layout (map tidy_block [(chars "a", [[]; chars " "; []; []]);
                                             (chars " b", [[]; []]);
                                             (chars "c", [])])).
Proof.
  apply (TidyAllLines_blank_runs []
           [(chars "a", [[]; chars " "; []; []]); (chars " b", [[]; []]); (chars "c", [])]).
  - repeat constructor; (intros H; simpl in H; intuition discriminate).
  - constructor.
  - repeat constructor.
Defined.

(** * Further properties of the header's code

    ** [utils::Repeat] *)

Lemma copies_snoc (n : nat) (s : string) : copies (S n) s = copies n s ++ s.
Proof.
  induction n as [|n IH]; simpl.
  - now rewrite append_empty_r.
  - simpl in IH. rewrite IH at 1. now rewrite append_assoc.
Qed.

Lemma length_string_app (a b : string) :
  String.length (a ++ b) = (String.length a + String.length b)%nat.
Proof. induction a as [|ch a IH]; simpl; [reflexivity | now rewrite IH]. Qed.

Lemma Repeat_loop_returns (fuel : nat) (s : string) (amount : Z) :
  amount <= 65535 ->
  forall (i : Z) (done : nat),
    0 <= i <= amount -> i = Z.of_nat done ->
    (Z.to_nat (amount - i) < fuel)%nat ->
    utils.Repeat_loop fuel s amount i (copies done s)
    = Some (copies (Z.to_nat amount) s).
Proof.
  intros Hamount. induction fuel as [|fuel IH]; intros i done Hi Hdone Hfuel; [lia|].
  simpl. destruct (Z.ltb_spec i amount) as [Hlt|Hge].
  - rewrite <- copies_snoc. unfold wrap_uint16. rewrite Z.mod_small by lia.
    apply IH; lia.
  - replace (Z.to_nat amount) with done by lia. reflexivity.
Qed.

Lemma Repeat_returns (fuel : nat) (s : string) (amount : Z) :
  0 <= amount <= 65535 ->
  (Z.to_nat amount < fuel)%nat ->
  utils.Repeat fuel s amount = Some (copies (Z.to_nat amount) s).
Proof.
  intros Hamount Hfuel. unfold utils.Repeat.
  destruct (Z.eqb_spec amount 0) as [->|H0]; [reflexivity|].
  destruct (Z.eqb_spec amount 1) as [->|H1].
  - simpl. now rewrite append_empty_r.
  - apply (Repeat_loop_returns fuel s amount) with (done := O); lia.
Qed.

Lemma length_copies (n : nat) (s : string) :
  String.length (copies n s) = (n * String.length s)%nat.
Proof.
  induction n as [|n IH]; [reflexivity|].
  simpl. rewrite length_string_app, IH. reflexivity.
Qed.

(** X1: for an amount of at most 65535, [Repeat] returns, within amount + 1
    loop tests, the string repeated that many times (amounts 0 and 1
    included), which is amount times as long as the string. *)
Theorem Repeat_within_uint16_returns_copies (fuel : nat) (s : string) (amount : Z) :
  0 <= amount <= 65535 ->
  (Z.to_nat amount < fuel)%nat ->
  utils.Repeat fuel s amount = Some (copies (Z.to_nat amount) s)
  /\ String.length (copies (Z.to_nat amount) s)
     = (Z.to_nat amount * String.length s)%nat.
Proof.
  intros Hamount Hfuel. split; [apply Repeat_returns; assumption|].
  apply length_copies.
Qed.

Lemma Repeat_within_uint16_returns_copies_witness :
  utils.Repeat 4 "> " 3 = Some (copies (Z.to_nat 3) "> ")
  /\ String.length (copies (Z.to_nat 3) "> ") = (Z.to_nat 3 * String.length "> ")%nat.
Proof. apply (Repeat_within_uint16_returns_copies 4 "> " 3); simpl; lia. Defined.

(** X2: for an amount above 65535 the loop of [Repeat] never leaves: its
    [uint16_t] counter wraps to 0 before it can reach the amount. *)
Theorem Repeat_above_uint16_never_returns (fuel : nat) (s : string) (amount : Z) :
  65535 < amount -> utils.Repeat fuel s amount = None.
Proof. intros H. apply Repeat_never_returns. lia. Qed.

Lemma Repeat_above_uint16_never_returns_witness :
  utils.Repeat 100 "> " 65536 = None.
Proof. apply (Repeat_above_uint16_never_returns 100 "> " 65536). lia. Defined.

(** ** More on the ancestry predicates *)

Lemma IsInIgnoredTag_from_app_true (tags more : list string) :
  IsInIgnoredTag_from tags = true -> IsInIgnoredTag_from (tags ++ more) = true.
Proof.
  induction tags as [|t tags IH]; [discriminate|].
  cbn [app]. rewrite !IsInIgnoredTag_from_cons.
  destruct (is_pre_or_title t); [discriminate|].
  destruct (IsIgnoredTag t); [reflexivity | exact IH].
Qed.

Lemma IsInIgnoredTag_from_app_override (tags more : list string) :
  IsInIgnoredTag_from tags = false ->
  existsb is_pre_or_title tags = true ->
  IsInIgnoredTag_from (tags ++ more) = false.
Proof.
  induction tags as [|t tags IH]; [discriminate|].
  cbn [app existsb]. rewrite !IsInIgnoredTag_from_cons.
  destruct (is_pre_or_title t); [reflexivity|].
  destruct (IsIgnoredTag t); [discriminate | exact IH].
Qed.

(** X3: the verdict of [IsInIgnoredTag] is settled by the outer tags: once
    it holds it holds for every deeper nesting; once a [pre] or [title]
    ancestor has switched it off it stays off however many ignored tags are
    opened inside; with no tag open it is off. *)
Theorem IsInIgnoredTag_decided_by_outer_tags (c : Converter) (more : list string) :
  (IsInIgnoredTag c = true ->
   IsInIgnoredTag (set_dom_tags_ (dom_tags_ c ++ more) c) = true)
  /\ (IsInIgnoredTag c = false -> has_pre_or_title_ancestor c = true ->
      IsInIgnoredTag (set_dom_tags_ (dom_tags_ c ++ more) c) = false)
  /\ (dom_tags_ c = [] -> IsInIgnoredTag c = false).
Proof.
  unfold IsInIgnoredTag, has_pre_or_title_ancestor.
  change (dom_tags_ (set_dom_tags_ ?v c)) with v.
  split; [apply IsInIgnoredTag_from_app_true|].
  split; [apply IsInIgnoredTag_from_app_override|].
  intros ->. reflexivity.
Qed.

(** ** More on the handlers *)

(** X4: no tag handler, opening or closing, changes the scanner's part of
    the converter: cursor, raw text, tag offset, current tag name, the
    tag-scanning flags and the ancestry stack. *)
Theorem handlers_keep_scanner_state (tag : Tag) (fuel : nat) (c c' : Converter) :
  OnHasLeftOpeningTag tag fuel c = Some c' \/ OnHasLeftClosingTag tag fuel c = Some c' ->
  scanner_state c' = scanner_state c.
Proof.
  intros [H|H].
  - eapply OnHasLeftOpeningTag_scanner_state, H.
  - eapply OnHasLeftClosingTag_scanner_state, H.
Qed.

Lemma handlers_keep_scanner_state_witness :
  scanner_state (TagAnchor.OnHasLeftOpeningTag (Converter_init html_empty_anchor))
  = scanner_state (Converter_init html_empty_anchor).
Proof.
  apply (handlers_keep_scanner_state tagAnchor 0
           (Converter_init html_empty_anchor)
           (TagAnchor.OnHasLeftOpeningTag (Converter_init html_empty_anchor))).
  left. reflexivity.
Defined.

Lemma wrap_short_small (z : Z) : -32768 <= z <= 32767 -> wrap_short z = z.
Proof. intros H. unfold wrap_short. rewrite Z.mod_small; lia. Qed.

(** X5: opening then closing a blockquote, or closing then opening one,
    leaves the depth counter as it was, for every value of the [short]
    counter (wrap-around included); opening writes a newline exactly when
    the depth was 0. *)
Theorem blockquote_depth_round_trip (c : Converter) :
  -32768 <= index_blockquote c <= 32767 ->
  index_blockquote (TagBlockquote.OnHasLeftClosingTag (TagBlockquote.OnHasLeftOpeningTag c))
  = index_blockquote c
  /\ index_blockquote
       (TagBlockquote.OnHasLeftOpeningTag (TagBlockquote.OnHasLeftClosingTag c))
     = index_blockquote c
  /\ md_ (TagBlockquote.OnHasLeftOpeningTag c)
     = (if index_blockquote c =? 0 then md_ c ++ nl else md_ c).
Proof.
  intros H.
  assert (Hone : (wrap_short (index_blockquote c + 1) =? 1) = (index_blockquote c =? 0)).
  { destruct (Z.eqb_spec (index_blockquote c) 0) as [->|Hne]; [reflexivity|].
    apply Z.eqb_neq. unfold wrap_short. Z.div_mod_to_equations. lia. }
  unfold TagBlockquote.OnHasLeftClosingTag, TagBlockquote.OnHasLeftOpeningTag, when.
  cbv zeta.
  change (index_blockquote (set_index_blockquote (wrap_short (index_blockquote c + 1)) c))
    with (wrap_short (index_blockquote c + 1)).
  change (index_blockquote (set_index_blockquote (wrap_short (index_blockquote c - 1)) c))
    with (wrap_short (index_blockquote c - 1)).
  rewrite Hone.
  split; [|split].
  - destruct (index_blockquote c =? 0);
      change (wrap_short (wrap_short (index_blockquote c + 1) - 1) = index_blockquote c);
      unfold wrap_short; Z.div_mod_to_equations; lia.
  - match goal with |- context [if ?b then _ else _] => destruct b end;
      change (wrap_short (wrap_short (index_blockquote c - 1) + 1) = index_blockquote c);
      unfold wrap_short; Z.div_mod_to_equations; lia.
  - destruct (index_blockquote c =? 0); reflexivity.
Qed.

Lemma blockquote_depth_round_trip_witness :
  let c := Converter_init EmptyString in
  index_blockquote (TagBlockquote.OnHasLeftClosingTag (TagBlockquote.OnHasLeftOpeningTag c))
  = index_blockquote c
  /\ index_blockquote
       (TagBlockquote.OnHasLeftOpeningTag (TagBlockquote.OnHasLeftClosingTag c))
     = index_blockquote c
  /\ md_ (TagBlockquote.OnHasLeftOpeningTag c)
     = (if index_blockquote c =? 0 then md_ c ++ nl else md_ c).
Proof. apply (blockquote_depth_round_trip (Converter_init EmptyString)). simpl. lia. Defined.

Lemma ch_eq_false (a b : ascii) : a <> b -> ch_eq a b = false.
Proof. apply Ascii.eqb_neq. Qed.

Lemma str_eq_false (a b : string) : a <> b -> str_eq a b = false.
Proof. apply String.eqb_neq. Qed.

Lemma nul_free_copies (n : nat) (s : string) :
  nul_free s = true -> nul_free (copies n s) = true.
Proof.
  intros H. induction n as [|n IH]; [reflexivity|].
  simpl. rewrite nul_free_app, H, IH. reflexivity.
Qed.

Lemma to_size_t_small (z : Z) : 0 <= z <= 32767 -> to_size_t z = z.
Proof. intros H. unfold to_size_t. apply Z.mod_small. lia. Qed.

(** X6: at a negative blockquote depth (more closing than opening
    blockquote tags so far) the break handler and the pre handler never
    return, since they pass the depth to [Repeat]; the paragraph handler,
    which tests the depth first, returns. *)
Theorem negative_depth_handlers (fuel : nat) (c : Converter) :
  -32768 <= index_blockquote c < 0 ->
  TagBreak.OnHasLeftOpeningTag fuel c = None
  /\ TagPre.OnHasLeftOpeningTag fuel c = None
  /\ TagParagraph.OnHasLeftOpeningTag fuel c <> None.
Proof.
  intros H. split; [apply TagBreak_never_returns, H|]. split.
  - unfold TagPre.OnHasLeftOpeningTag, when. cbv zeta.
    repeat match goal with
           | |- context [if ch_ne ?a ?b then _ else _] => destruct (ch_ne a b)
           end;
      same_depth c;
      (destruct (Z.eqb_spec (index_blockquote c) 0) as [E|_]; [lia|]);
      cbn [negb];
      rewrite Repeat_never_returns by (apply to_size_t_negative, H); reflexivity.
  - unfold TagParagraph.OnHasLeftOpeningTag. cbv zeta.
    repeat match goal with
           | |- context [if (?a && ?b)%bool then _ else _] => destruct (a && b)%bool
           end;
      same_depth c;
      (destruct (Z.gtb_spec (index_blockquote c) 0) as [E|_]; [lia|]); discriminate.
Qed.

Lemma negative_depth_handlers_witness :
  let c := TagBlockquote.OnHasLeftClosingTag (Converter_init EmptyString) in
  TagBreak.OnHasLeftOpeningTag 7 c = None
  /\ TagPre.OnHasLeftOpeningTag 7 c = None
  /\ TagParagraph.OnHasLeftOpeningTag 7 c <> None.
Proof.
  apply (negative_depth_handlers 7
           (TagBlockquote.OnHasLeftClosingTag (Converter_init EmptyString))).
  vm_compute. split; [discriminate | reflexivity].
Defined.

(** X7: outside a table, with a non-empty buffer and a depth within 0 ..
    32767, a line break appends two blanks, a newline and the blockquote
    prefix, one [> ] per level. *)
Theorem line_break_writes_blockquote_prefix (fuel : nat) (c : Converter) :
  is_in_table_ c = false ->
  0 < md_len_ c ->
  0 <= index_blockquote c <= 32767 ->
  (Z.to_nat (index_blockquote c) < fuel)%nat ->
  exists c' : Converter,
    TagBreak.OnHasLeftOpeningTag fuel c = Some c'
    /\ md_ c' = md_ c ++ "  " ++ nl ++ copies (Z.to_nat (index_blockquote c)) "> ".
Proof.
  intros Htable Hlen Hdepth Hfuel.
  unfold TagBreak.OnHasLeftOpeningTag, when. rewrite Htable.
  destruct (Z.gtb_spec (md_len_ c) 0) as [_|E]; [|lia].
  same_depth c.
  rewrite to_size_t_small, Repeat_returns by lia.
  cbn [bind]. eexists. split; [reflexivity|].
  rewrite md_AppendToMd_string, md_AppendToMd.
  rewrite c_str_nul_free by (apply nul_free_copies; reflexivity).
  rewrite !append_assoc. reflexivity.
Qed.

Lemma line_break_writes_blockquote_prefix_witness :
  let c := TagBlockquote.OnHasLeftOpeningTag
             (TagBlockquote.OnHasLeftOpeningTag (AppendToMd "a" (Converter_init EmptyString))) in
  exists c' : Converter,
    TagBreak.OnHasLeftOpeningTag 3 c = Some c'
    /\ md_ c' = md_ c ++ "  " ++ nl ++ copies (Z.to_nat (index_blockquote c)) "> ".
Proof.
  apply (line_break_writes_blockquote_prefix 3
           (TagBlockquote.OnHasLeftOpeningTag
              (TagBlockquote.OnHasLeftOpeningTag (AppendToMd "a" (Converter_init EmptyString)))));
    [reflexivity | reflexivity | vm_compute; split; discriminate | vm_compute; lia].
Defined.

(** X8: inside a table the handlers of li, ol and ul, opening and closing,
    leave the converter unchanged: no list marker, no flag, no counter. *)
Theorem list_markup_is_suppressed_inside_tables (c : Converter) :
  is_in_table_ c = true ->
  TagListItem.OnHasLeftOpeningTag c = c
  /\ TagListItem.OnHasLeftClosingTag c = c
  /\ TagOrderedList.OnHasLeftOpeningTag c = c
  /\ TagOrderedList.OnHasLeftClosingTag c = c
  /\ TagUnorderedList.OnHasLeftOpeningTag c = c
  /\ TagUnorderedList.OnHasLeftClosingTag c = c.
Proof.
  intros H.
  unfold TagListItem.OnHasLeftOpeningTag, TagListItem.OnHasLeftClosingTag,
    TagOrderedList.OnHasLeftOpeningTag, TagOrderedList.OnHasLeftClosingTag,
    TagUnorderedList.OnHasLeftOpeningTag, TagUnorderedList.OnHasLeftClosingTag.
  rewrite H, orb_true_r. repeat split.
Qed.

Lemma list_markup_is_suppressed_inside_tables_witness :
  let c := TagTable.OnHasLeftOpeningTag (Converter_init EmptyString) in
  TagListItem.OnHasLeftOpeningTag c = c
  /\ TagListItem.OnHasLeftClosingTag c = c
  /\ TagOrderedList.OnHasLeftOpeningTag c = c
  /\ TagOrderedList.OnHasLeftClosingTag c = c
  /\ TagUnorderedList.OnHasLeftOpeningTag c = c
  /\ TagUnorderedList.OnHasLeftClosingTag c = c.
Proof.
  apply (list_markup_is_suppressed_inside_tables
           (TagTable.OnHasLeftOpeningTag (Converter_init EmptyString))).
  reflexivity.
Defined.

(** X9: closing an anchor with a body (the buffer ends neither in a blank
    nor in the opening bracket), outside ignored content and not after an
    image, appends the href in parentheses, followed by the quoted title
    when there is one, and a blank. *)
Theorem anchor_close_writes_link_tail (c : Converter) :
  IsInIgnoredTag c = false ->
  prev_ch_in_md_ c <> " "%char ->
  prev_ch_in_md_ c <> "["%char ->
  prev_tag_ c <> kTagImg ->
  md_ (TagAnchor.OnHasLeftClosingTag c)
  = md_ c ++ "](" ++ c_str (current_href_ c) ++ link_title (current_title_ c) ++ ") ".
Proof.
  intros Hign Hblank Hopen Himg.
  unfold TagAnchor.OnHasLeftClosingTag, when, link_title. rewrite Hign.
  rewrite (ch_eq_false _ _ Hblank), (ch_eq_false _ _ Hopen). cbv zeta.
  change (current_title_ (AppendToMd_string (current_href_ c) (AppendToMd "](" c)))
    with (current_title_ c).
  destruct (empty (current_title_ c)); cbn [negb].
  - change (prev_tag_ (AppendToMd ") " (AppendToMd_string (current_href_ c) (AppendToMd "](" c))))
      with (prev_tag_ c).
    rewrite (str_eq_false _ _ Himg).
    rewrite md_AppendToMd, md_AppendToMd_string, md_AppendToMd.
    rewrite !append_assoc. reflexivity.
  - match goal with
    | |- context [str_eq (prev_tag_ ?x) kTagImg] =>
        change (prev_tag_ x) with (prev_tag_ c)
    end.
    rewrite (str_eq_false _ _ Himg).
    rewrite md_AppendToMd, md_AppendToMd_ch, md_AppendToMd_string, md_AppendToMd,
      md_AppendToMd_string, md_AppendToMd.
    rewrite !append_assoc. reflexivity.
Qed.

Lemma anchor_close_writes_link_tail_witness :
  let c := set_current_title_ "t"
             (set_current_href_ "https://x" (AppendToMd "[link" (Converter_init EmptyString))) in
  md_ (TagAnchor.OnHasLeftClosingTag c)
  = md_ c ++ "](" ++ c_str (current_href_ c) ++ link_title (current_title_ c) ++ ") ".
Proof.
  apply (anchor_close_writes_link_tail
           (set_current_title_ "t"
              (set_current_href_ "https://x"
                 (AppendToMd "[link" (Converter_init EmptyString)))));
    [reflexivity | vm_compute; discriminate | vm_compute; discriminate
    | vm_compute; discriminate].
Defined.

(** X10: a table header cell adds to the separator row one cell with a
    single dash: [| :- ] for align=left, [| :-: ] for center, [| -: ] for
    right and [| - ] for anything else, and writes [| ] to the buffer. *)
Theorem table_header_separator_cells (c : Converter) :
  tableLine (TagTableHeader.OnHasLeftOpeningTag c)
  = tableLine c ++ separator_cell (ExtractAttributeFromTagLeftOf kAttrinuteAlign c)
  /\ md_ (TagTableHeader.OnHasLeftOpeningTag c) = md_ c ++ "| ".
Proof.
  unfold TagTableHeader.OnHasLeftOpeningTag, separator_cell. cbv zeta.
  change (tableLine (AppendToMd "| " (set_tableLine ?v c))) with v.
  split; [|reflexivity].
  f_equal. unfold str_eq.
  destruct (String.eqb_spec (ExtractAttributeFromTagLeftOf kAttrinuteAlign c) "left")
    as [E|_]; [rewrite E; reflexivity|].
  destruct (String.eqb_spec (ExtractAttributeFromTagLeftOf kAttrinuteAlign c) "center")
    as [E|_]; [rewrite E; reflexivity|].
  destruct (String.eqb_spec (ExtractAttributeFromTagLeftOf kAttrinuteAlign c) "right")
    as [E|_]; reflexivity.
Qed.

(** X11: when the buffer ends in a blank, the closing handlers of bold,
    italic, strikethrough, underline and inline code remove that one blank
    before they write their own closing mark. *)
Theorem closers_strip_one_trailing_blank (c : Converter) (m : string) :
  md_ c = m ++ " " ->
  prev_ch_in_md_ c = " "%char ->
  md_ (TagBold.OnHasLeftClosingTag c) = m ++ "** "
  /\ md_ (TagItalic.OnHasLeftClosingTag c) = m ++ "* "
  /\ md_ (TagStrikethrought.OnHasLeftClosingTag c) = m ++ "~ "
  /\ md_ (TagUnderline.OnHasLeftClosingTag c) = m ++ "</u>"
  /\ (is_in_pre_ c = false -> md_ (TagCode.OnHasLeftClosingTag c) = m ++ "` ").
Proof.
  intros Hmd Hprev.
  pose proof (md_ShortenMarkdown_last c m " "%char Hmd) as Hs.
  unfold TagBold.OnHasLeftClosingTag, TagItalic.OnHasLeftClosingTag,
    TagStrikethrought.OnHasLeftClosingTag, TagUnderline.OnHasLeftClosingTag,
    TagCode.OnHasLeftClosingTag, when.
  rewrite Hprev. cbn [ch_eq Ascii.eqb Bool.eqb].
  rewrite !md_AppendToMd, Hs.
  repeat (split; [reflexivity|]).
  intros Hpre. cbv zeta.
  change (is_in_pre_ (set_is_in_code_ false c)) with (is_in_pre_ c). rewrite Hpre.
  change (prev_ch_in_md_ (set_is_in_code_ false c)) with (prev_ch_in_md_ c).
  rewrite Hprev. cbn [ch_eq Ascii.eqb Bool.eqb].
  rewrite md_AppendToMd.
  rewrite (md_ShortenMarkdown_last (set_is_in_code_ false c) m " "%char Hmd).
  reflexivity.
Qed.

Lemma closers_strip_one_trailing_blank_witness :
  let c := AppendToMd "**bold " (Converter_init EmptyString) in
  md_ (TagBold.OnHasLeftClosingTag c) = "**bold" ++ "** "
  /\ md_ (TagItalic.OnHasLeftClosingTag c) = "**bold" ++ "* "
  /\ md_ (TagStrikethrought.OnHasLeftClosingTag c) = "**bold" ++ "~ "
  /\ md_ (TagUnderline.OnHasLeftClosingTag c) = "**bold" ++ "</u>"
  /\ (is_in_pre_ c = false -> md_ (TagCode.OnHasLeftClosingTag c) = "**bold" ++ "` ").
Proof.
  apply (closers_strip_one_trailing_blank
           (AppendToMd "**bold " (Converter_init EmptyString)) "**bold"); reflexivity.
Defined.

Lemma c_str_app_nul (a b : string) :
  nul_free a = true -> c_str (a ++ String NUL b) = a.
Proof.
  unfold nul_free. induction a as [|ch a IH]; intros H; [reflexivity|].
  simpl in *. apply andb_true_iff in H. destruct H as [Hch Ha].
  destruct (Ascii.eqb ch NUL); [discriminate|]. now rewrite IH.
Qed.

(** X12: [AppendToMd(const std::string&)] appends what [c_str()] shows:
    the text before the first NUL; a string without NUL is appended whole. *)
Theorem AppendToMd_string_stops_at_nul (a b : string) (c : Converter) :
  nul_free a = true ->
  AppendToMd_string (a ++ String NUL b) c = AppendToMd a c
  /\ AppendToMd_string a c = AppendToMd a c.
Proof.
  intros H. unfold AppendToMd_string.
  rewrite c_str_app_nul, c_str_nul_free by exact H. split; reflexivity.
Qed.

Lemma AppendToMd_string_stops_at_nul_witness :
  AppendToMd_string ("ru" ++ String NUL "st") (Converter_init EmptyString)
  = AppendToMd "ru" (Converter_init EmptyString)
  /\ AppendToMd_string "ru" (Converter_init EmptyString)
     = AppendToMd "ru" (Converter_init EmptyString).
Proof.
  apply (AppendToMd_string_stops_at_nul "ru" "st" (Converter_init EmptyString)).
  reflexivity.
Defined.

(** X13: an image opened at the start of a line appends its alt text in
    brackets and its source in parentheses after an exclamation mark;
    closing it does nothing unless the previous tag is an anchor. *)
Theorem image_markup (c : Converter) :
  prev_ch_in_md_ c = ch_nl ->
  md_ (TagImage.OnHasLeftOpeningTag c)
  = md_ c ++ "![" ++ c_str (ExtractAttributeFromTagLeftOf kAttributeAlt c)
      ++ "](" ++ c_str (ExtractAttributeFromTagLeftOf kAttributeSrc c) ++ ")"
  /\ (prev_tag_ c <> kTagAnchor -> TagImage.OnHasLeftClosingTag c = c).
Proof.
  intros Hprev. split.
  - unfold TagImage.OnHasLeftOpeningTag, when. rewrite Hprev.
    unfold ch_ne. rewrite Ascii.eqb_refl, andb_false_r. cbv zeta.
    repeat (rewrite md_AppendToMd || rewrite md_AppendToMd_string).
    rewrite !append_assoc. reflexivity.
  - intros H. unfold TagImage.OnHasLeftClosingTag, when.
    now rewrite (str_eq_false _ _ H).
Qed.

Lemma image_markup_witness :
  let c := AppendToMd nl (Converter_init EmptyString) in
  md_ (TagImage.OnHasLeftOpeningTag c)
  = md_ c ++ "![" ++ c_str (ExtractAttributeFromTagLeftOf kAttributeAlt c)
      ++ "](" ++ c_str (ExtractAttributeFromTagLeftOf kAttributeSrc c) ++ ")"
  /\ (prev_tag_ c <> kTagAnchor -> TagImage.OnHasLeftClosingTag c = c).
Proof.
  apply (image_markup (AppendToMd nl (Converter_init EmptyString))). reflexivity.
Defined.

(** X14: closing a table row when no separator row is pending appends a
    closing pipe, or a newline instead when the buffer already ends in a
    pipe, and leaves the separator row empty. *)
Theorem table_row_close_without_header (c : Converter) :
  tableLine c = EmptyString ->
  md_ (TagTableRow.OnHasLeftClosingTag c)
  = md_ c ++ (if ch_eq (last_ch (md_ c)) "|"%char then nl else "|")
  /\ tableLine (TagTableRow.OnHasLeftClosingTag c) = EmptyString.
Proof.
  intros Hline. unfold TagTableRow.OnHasLeftClosingTag. cbv zeta.
  change (prev_ch_in_md_ (UpdatePrevChFromMd c)) with (last_ch (md_ c)).
  destruct (ch_eq (last_ch (md_ c)) "|"%char).
  - change (tableLine (AppendToMd_ch ch_nl (UpdatePrevChFromMd c))) with (tableLine c).
    rewrite Hline. cbn [empty negb]. split; [reflexivity | exact Hline].
  - change (tableLine (AppendToMd_ch "|"%char (UpdatePrevChFromMd c))) with (tableLine c).
    rewrite Hline. cbn [empty negb]. split; [reflexivity | exact Hline].
Qed.

Lemma table_row_close_without_header_witness :
  let c := AppendToMd "| a | b |" (Converter_init EmptyString) in
  md_ (TagTableRow.OnHasLeftClosingTag c)
  = md_ c ++ (if ch_eq (last_ch (md_ c)) "|"%char then nl else "|")
  /\ tableLine (TagTableRow.OnHasLeftClosingTag c) = EmptyString.
Proof.
  apply (table_row_close_without_header
           (AppendToMd "| a | b |" (Converter_init EmptyString))).
  reflexivity.
Defined.

Lemma is_in_table_AppendToMd_ch (ch : ascii) (c : Converter) :
  is_in_table_ (AppendToMd_ch ch c) = is_in_table_ c.
Proof. reflexivity. Qed.

Lemma is_in_ordered_list_AppendToMd_ch (ch : ascii) (c : Converter) :
  is_in_ordered_list_ (AppendToMd_ch ch c) = is_in_ordered_list_ c.
Proof. reflexivity. Qed.

(** X15: closing an ordered list outside a table clears both list flags
    whatever lists are still open, and keeps the counter: a list item opened
    next gets the bullet of an unordered list.  This is why an ordered list
    nested in an ordered list loses its numbering. *)
Theorem closing_an_ordered_list_ends_numbering (c : Converter) :
  is_in_table_ c = false ->
  is_in_ordered_list_ (TagOrderedList.OnHasLeftClosingTag c) = false
  /\ is_in_list_ (TagOrderedList.OnHasLeftClosingTag c) = false
  /\ index_li (TagOrderedList.OnHasLeftClosingTag c) = index_li c
  /\ md_ (TagListItem.OnHasLeftOpeningTag (TagOrderedList.OnHasLeftClosingTag c))
     = md_ c ++ nl ++ "- ".
Proof.
  intros H. unfold TagOrderedList.OnHasLeftClosingTag. rewrite H.
  split; [reflexivity | split; [reflexivity | split; [reflexivity|]]].
  unfold TagListItem.OnHasLeftOpeningTag.
  rewrite is_in_table_AppendToMd_ch, is_in_ordered_list_AppendToMd_ch.
  cbn [is_in_table_ is_in_ordered_list_ set_is_in_ordered_list_ set_is_in_list_].
  rewrite H. cbn [negb]. rewrite md_AppendToMd, md_AppendToMd_ch.
  cbn [md_ set_is_in_ordered_list_ set_is_in_list_].
  rewrite append_assoc. reflexivity.
Qed.

Lemma closing_an_ordered_list_ends_numbering_witness :
  let c := TagOrderedList.OnHasLeftOpeningTag
             (TagOrderedList.OnHasLeftOpeningTag (Converter_init EmptyString)) in
  is_in_ordered_list_ (TagOrderedList.OnHasLeftClosingTag c) = false
  /\ is_in_list_ (TagOrderedList.OnHasLeftClosingTag c) = false
  /\ index_li (TagOrderedList.OnHasLeftClosingTag c) = index_li c
  /\ md_ (TagListItem.OnHasLeftOpeningTag (TagOrderedList.OnHasLeftClosingTag c))
     = md_ c ++ nl ++ "- ".
Proof.
  apply (closing_an_ordered_list_ends_numbering
           (TagOrderedList.OnHasLeftOpeningTag
              (TagOrderedList.OnHasLeftOpeningTag (Converter_init EmptyString)))).
  reflexivity.
Defined.

Lemma substring_prefix_app (s b : string) :
  substring 0 (String.length s) (s ++ b) = s.
Proof.
  induction s as [|ch s IH]; simpl.
  - destruct b; reflexivity.
  - now rewrite IH.
Qed.

Lemma prefix_app (s b : string) : prefix s (s ++ b) = true.
Proof. apply prefix_correct, substring_prefix_app. Qed.

Lemma contains_app (needle before after : string) :
  contains needle (before ++ needle ++ after) = true.
Proof.
  unfold contains.
  assert (H : index 0 needle (before ++ needle ++ after) <> None).
  { induction before as [|ch before IH].
    - cbn [append]. destruct (needle ++ after) as [|ch rest] eqn:E.
      + destruct needle; [discriminate | discriminate E].
      + cbn [index]. rewrite <- E, prefix_app. discriminate.
    - cbn [append index].
      destruct (prefix needle (String ch (before ++ needle ++ after))); [discriminate|].
      destruct (index 0 needle (before ++ needle ++ after)); [discriminate | exact IH]. }
  destruct (index 0 needle (before ++ needle ++ after)); [reflexivity | congruence].
Qed.

(** X16: [TagContainsAttributesToHide] finds each of its five patterns
    wherever it stands in the tag text, whatever comes before and after it
    (so opacity:0.5 counts as opacity:0). *)
Theorem hidden_patterns_are_found_anywhere (before after : string) :
  TagContainsAttributesToHide (before ++ " aria=" ++ dq ++ "hidden" ++ dq ++ after) = true
  /\ TagContainsAttributesToHide (before ++ "display:none" ++ after) = true
  /\ TagContainsAttributesToHide (before ++ "visibility:hidden" ++ after) = true
  /\ TagContainsAttributesToHide (before ++ "opacity:0" ++ after) = true
  /\ TagContainsAttributesToHide
       (before ++ "Details-content--hidden-not-important" ++ after) = true.
Proof.
  unfold TagContainsAttributesToHide.
  split; [|split; [|split; [|split]]].
  - replace (" aria=" ++ dq ++ "hidden" ++ dq ++ after)
      with ((" aria=" ++ dq ++ "hidden" ++ dq) ++ after) by reflexivity.
    rewrite contains_app. reflexivity.
  - rewrite (contains_app "display:none"), !orb_true_r. reflexivity.
  - rewrite (contains_app "visibility:hidden"), !orb_true_r. reflexivity.
  - rewrite (contains_app "opacity:0"), !orb_true_r. reflexivity.
  - rewrite (contains_app "Details-content--hidden-not-important"), !orb_true_r.
    reflexivity.
Qed.

(** X17: a paragraph opened outside a list at a blockquote depth within 1
    .. 32767 appends an empty quoted line and then the blockquote prefix, one
    [> ] per level. *)
Theorem paragraph_in_blockquote_writes_prefix (fuel : nat) (c : Converter) :
  is_in_list_ c = false ->
  0 < index_blockquote c <= 32767 ->
  (Z.to_nat (index_blockquote c) < fuel)%nat ->
  exists c' : Converter,
    TagParagraph.OnHasLeftOpeningTag fuel c = Some c'
    /\ md_ c' = md_ c ++ "> " ++ nl ++ copies (Z.to_nat (index_blockquote c)) "> ".
Proof.
  intros Hlist Hdepth Hfuel.
  unfold TagParagraph.OnHasLeftOpeningTag. rewrite Hlist. cbn [andb negb].
  destruct (Z.eqb_spec (index_blockquote c) 0) as [E|_]; [lia|]. cbv zeta.
  destruct (Z.gtb_spec (index_blockquote c) 0) as [_|E]; [|lia].
  same_depth c.
  rewrite to_size_t_small, Repeat_returns by lia.
  cbn [bind]. eexists. split; [reflexivity|].
  rewrite md_AppendToMd_string, md_AppendToMd.
  rewrite c_str_nul_free by (apply nul_free_copies; reflexivity).
  rewrite !append_assoc. reflexivity.
Qed.

Lemma paragraph_in_blockquote_writes_prefix_witness :
  let c := TagBlockquote.OnHasLeftOpeningTag (Converter_init EmptyString) in
  exists c' : Converter,
    TagParagraph.OnHasLeftOpeningTag 2 c = Some c'
    /\ md_ c' = md_ c ++ "> " ++ nl ++ copies (Z.to_nat (index_blockquote c)) "> ".
Proof.
  apply (paragraph_in_blockquote_writes_prefix 2
           (TagBlockquote.OnHasLeftOpeningTag (Converter_init EmptyString)));
    [reflexivity | vm_compute; split; [reflexivity | discriminate] | vm_compute; lia].
Defined.
